(** * Guidedog: the Cloudflare Worker API proxy

    A shallow embedding of [cloudflare-worker/guidedog-worker.js] and the
    properties of its HTTP contract.

    The worker is one asynchronous function over the runtime's [Request],
    [Response] and [Headers] objects.  It has two effects, the upstream
    [fetch] and the clock read by [new Date()], and it can throw: a
    rejected [fetch] throws at its [await], and so do the [Headers]
    methods and the [Response] constructor when they refuse their
    arguments.  A throw inside a [try] block runs its [catch]; a throw
    outside one ends the worker without a response.  Programs are terms of
    a small free monad with exceptions, run against a [World] that answers
    the effects and records every call of the upstream [fetch].

    Model boundary.  JavaScript strings are [string]s (code units below
    256).  The built-ins follow their WHATWG and ECMAScript algorithms:
    [Headers] methods validate names, trim values and refuse NUL, CR and
    LF; the [Response] constructor checks the status, the status text and
    the body against the status.  What the runtime is free to choose, the
    text of the errors it throws and the status text of a response built
    without one, is a parameter, [Runtime].  The inbound request and the
    response delivered by the upstream are objects the runtime made, so
    their header lists are taken to be valid and are copied as they are.
    A call of the upstream [fetch] is counted when [fetch] is invoked,
    whatever the world then answers. *)

From Stdlib Require Import String Ascii List Bool ZArith Lia.
Import ListNotations.
Local Open Scope string_scope.

(** ** JavaScript strings *)

Module JS.

(** [c.toLowerCase()] on one ASCII code unit. *)
Definition lower_ascii (c : ascii) : ascii :=
  let n := nat_of_ascii c in
  if andb (Nat.leb 65 n) (Nat.leb n 90) then ascii_of_nat (n + 32) else c.

Fixpoint toLowerCase (s : string) : string :=
  match s with
  | EmptyString => EmptyString
  | String c s' => String (lower_ascii c) (toLowerCase s')
  end.

(** [s.startsWith(p)] *)
Definition startsWith (s p : string) : bool := String.prefix p s.

(** [s.slice(n)] for [0 <= n]. *)
Fixpoint slice (n : nat) (s : string) : string :=
  match n, s with
  | O, _ => s
  | S n', String _ s' => slice n' s'
  | S _, EmptyString => EmptyString
  end.

(** [s.replace(pat, rep)] with a string pattern: the first occurrence of
    [pat], scanning from the left, is replaced; [rep] holds no [$]. *)
Fixpoint replace (s pat rep : string) : string :=
  if String.prefix pat s then rep ++ slice (String.length pat) s
  else match s with
       | EmptyString => EmptyString
       | String c s' => String c (replace s' pat rep)
       end.

(** [a === b] on strings. *)
Definition strict_eq (a b : string) : bool := String.eqb a b.

(** Truthiness of a value that is a string or [undefined]: [!v] holds
    for [undefined] and for the empty string. *)
Definition truthy (v : option string) : option string :=
  match v with
  | Some EmptyString => None
  | Some s => Some s
  | None => None
  end.

End JS.

(** ** Plain objects with string values, in property insertion order *)

Module Obj.

Definition t := list (string * string).

Fixpoint set (o : t) (k v : string) : t :=
  match o with
  | [] => [(k, v)]
  | (k', v') :: o' =>
      if String.eqb k' k then (k', v) :: o' else (k', v') :: set o' k v
  end.

(** [Object.entries(o)] *)
Definition entries (o : t) : list (string * string) := o.

(** [{ ...o, ...src }]: every own property of [src] is defined on [o]. *)
Definition spread (o src : t) : t :=
  fold_left (fun acc kv => set acc (fst kv) (snd kv)) (entries src) o.

End Obj.

(** ** What the built-ins throw *)

(** The refusals of the built-ins the worker calls: [TypeError]s of the
    [Headers] methods and of the [Response] constructor, and the
    constructor's [RangeError]. *)
Inductive Failure :=
| InvalidHeaderName (name : string)
| InvalidHeaderValue (name value : string)
| StatusOutOfRange (status : Z)
| InvalidStatusText (text : string)
| BodyOnNullBodyStatus (status : Z).

Inductive Result (A : Type) : Type :=
| Ok (a : A)
| Err (f : Failure).

Arguments Ok {A} a.
Arguments Err {A} f.

Definition and_then {A B : Type} (r : Result A) (k : A -> Result B)
  : Result B :=
  match r with
  | Ok a => k a
  | Err f => Err f
  end.

Declare Scope result_scope.
Delimit Scope result_scope with result.
Notation "x <- r ;; k" := (and_then r (fun x => k))
  (at level 61, r at next level, right associativity) : result_scope.

(** ** The Headers class

    A header list of name/value pairs.  Names match case-insensitively and
    are exposed in lower case. *)

Module Headers.

Definition t := list (string * string).

Definition name_eqb (a b : string) : bool :=
  String.eqb (JS.toLowerCase a) (JS.toLowerCase b).

Definition is_named (n : string) (e : string * string) : bool :=
  name_eqb (fst e) n.

Definition has (h : t) (n : string) : bool := existsb (is_named n) h.

Fixpoint all_chars (p : ascii -> bool) (s : string) : bool :=
  match s with
  | EmptyString => true
  | String c s' => andb (p c) (all_chars p s')
  end.

(** A character of an HTTP token: a letter, a digit or one of
    [! # $ % & ' * + - . ^ _ ` | ~]. *)
Definition is_token_char (c : ascii) : bool :=
  let n := nat_of_ascii c in
  orb (andb (Nat.leb 48 n) (Nat.leb n 57))
    (orb (andb (Nat.leb 65 n) (Nat.leb n 90))
       (orb (andb (Nat.leb 97 n) (Nat.leb n 122))
          (existsb (Nat.eqb n)
             [33; 35; 36; 37; 38; 39; 42; 43; 45; 46; 94; 95; 96; 124; 126]))).

(** A header name is a non-empty token. *)
Definition valid_name (n : string) : bool :=
  match n with
  | EmptyString => false
  | _ => all_chars is_token_char n
  end.

(** HTTP whitespace: tab, LF, CR and space. *)
Definition is_whitespace (c : ascii) : bool :=
  existsb (Nat.eqb (nat_of_ascii c)) [9; 10; 13; 32].

Fixpoint strip_leading (s : string) : string :=
  match s with
  | EmptyString => EmptyString
  | String c s' => if is_whitespace c then strip_leading s' else s
  end.

Fixpoint strip_trailing (s : string) : string :=
  match s with
  | EmptyString => EmptyString
  | String c s' =>
      match strip_trailing s' with
      | EmptyString =>
          if is_whitespace c then EmptyString else String c EmptyString
      | rest => String c rest
      end
  end.

(** Normalising a value removes its leading and trailing whitespace. *)
Definition normalize (v : string) : string := strip_trailing (strip_leading v).

(** A normalised value is a header value when it holds no NUL, LF or CR. *)
Definition safe (v : string) : bool :=
  all_chars (fun c => negb (existsb (Nat.eqb (nat_of_ascii c)) [0; 10; 13])) v.

(** The algorithms on the header list. *)

Definition list_append (h : t) (n v : string) : t :=
  (h ++ [(JS.toLowerCase n, v)])%list.

Definition list_delete (h : t) (n : string) : t :=
  filter (fun e => negb (is_named n e)) h.

(** The first header named [n] takes the value [v] and the other headers
    named [n] are removed; without one, [(n, v)] is appended. *)
Fixpoint list_set (h : t) (n v : string) : t :=
  match h with
  | [] => [(JS.toLowerCase n, v)]
  | e :: h' =>
      if is_named n e then (JS.toLowerCase n, v) :: list_delete h' n
      else e :: list_set h' n v
  end.

(** The methods: the value is normalised, name and value are validated,
    and the list algorithm runs. *)

Definition validated (n v : string) (k : string -> t) : Result t :=
  let v' := normalize v in
  if negb (valid_name n) then Err (InvalidHeaderName n)
  else if negb (safe v') then Err (InvalidHeaderValue n v)
  else Ok (k v').

(** [h.append(n, v)] *)
Definition append (h : t) (n v : string) : Result t :=
  validated n v (list_append h n).

(** [h.set(n, v)] *)
Definition set (h : t) (n v : string) : Result t :=
  validated n v (list_set h n).

(** [h.delete(n)] *)
Definition delete (h : t) (n : string) : Result t :=
  if negb (valid_name n) then Err (InvalidHeaderName n)
  else Ok (list_delete h n).

Definition values (h : t) (n : string) : list string :=
  map snd (filter (is_named n) h).

Fixpoint join (vs : list string) : string :=
  match vs with
  | [] => EmptyString
  | [v] => v
  | v :: vs' => v ++ ", " ++ join vs'
  end.

(** [h.get(n)]: [null] without a header named [n], else the values of
    all of them joined by a comma and a space. *)
Definition get (h : t) (n : string) : option string :=
  match values h n with
  | [] => None
  | vs => Some (join vs)
  end.

(** The headers whose name is none of [ns]. *)
Definition except (ns : list string) (h : t) : t :=
  filter (fun e => negb (existsb (name_eqb (fst e)) ns)) h.

(** A predicate on headers that holds of no header named [n]. *)
Definition misses (P : string * string -> bool) (n : string) : Prop :=
  forall e, is_named n e = true -> P e = false.

Inductive init :=
| FromObject (o : Obj.t)
| FromHeaders (h : t).

(** [new Headers(init)]: the properties of an object are appended one by
    one; the list of a [Headers] object is copied. *)
Definition new (i : init) : Result t :=
  match i with
  | FromObject o =>
      fold_left
        (fun acc kv => and_then acc (fun h => append h (fst kv) (snd kv)))
        (Obj.entries o) (Ok [])
  | FromHeaders h => Ok h
  end.

End Headers.

(** ** JSON.stringify on the values the worker serialises *)

Module JSON.

#[local] Unset Elimination Schemes.
Inductive value :=
| Str (s : string)
| Object (fields : list (string * value)).
#[local] Set Elimination Schemes.

Definition hex_digit (n : nat) : ascii :=
  if Nat.ltb n 10 then ascii_of_nat (48 + n) else ascii_of_nat (87 + n).

(** One code unit inside a JSON string literal. *)
Definition escape (c : ascii) : string :=
  let n := nat_of_ascii c in
  if Nat.eqb n 8 then "\b"
  else if Nat.eqb n 9 then "\t"
  else if Nat.eqb n 10 then "\n"
  else if Nat.eqb n 12 then "\f"
  else if Nat.eqb n 13 then "\r"
  else if Nat.eqb n 34 then String "\" (String c EmptyString)
  else if Nat.eqb n 92 then "\\"
  else if Nat.ltb n 32 then
    "\u00" ++ String (hex_digit (n / 16)) (String (hex_digit (n mod 16)) EmptyString)
  else String c EmptyString.

Fixpoint escape_all (s : string) : string :=
  match s with
  | EmptyString => EmptyString
  | String c s' => escape c ++ escape_all s'
  end.

Definition dquote : string := String (ascii_of_nat 34) EmptyString.

Definition quote (s : string) : string := dquote ++ escape_all s ++ dquote.

Fixpoint stringify (j : value) : string :=
  match j with
  | Str s => quote s
  | Object fields =>
      let fix members (fs : list (string * value)) : string :=
        match fs with
        | [] => EmptyString
        | [(k, v)] => quote k ++ ":" ++ stringify v
        | (k, v) :: fs' => quote k ++ ":" ++ stringify v ++ "," ++ members fs'
        end in
      "{" ++ members fields ++ "}"
  end.

(** The inverse reading, as [JSON.parse] does it: the characters of a
    string literal up to its closing quote, and the text after it.
    Escapes above code unit 255 are outside the model. *)
Definition hex_value (c : ascii) : option nat :=
  let n := nat_of_ascii c in
  if andb (Nat.leb 48 n) (Nat.leb n 57) then Some (n - 48)
  else if andb (Nat.leb 97 n) (Nat.leb n 102) then Some (n - 87)
  else if andb (Nat.leb 65 n) (Nat.leb n 70) then Some (n - 55)
  else None.

Definition push (c : ascii) (r : option (string * string))
  : option (string * string) :=
  match r with
  | Some (s, rest) => Some (String c s, rest)
  | None => None
  end.

Fixpoint read_chars (t : string) : option (string * string) :=
  match t with
  | EmptyString => None
  | String c t1 =>
      let n := nat_of_ascii c in
      if Nat.eqb n 34 then Some (EmptyString, t1)
      else if Nat.ltb n 32 then None
      else if Nat.eqb n 92 then
        match t1 with
        | EmptyString => None
        | String e t2 =>
            let m := nat_of_ascii e in
            if Nat.eqb m 98 then push (ascii_of_nat 8) (read_chars t2)
            else if Nat.eqb m 116 then push (ascii_of_nat 9) (read_chars t2)
            else if Nat.eqb m 110 then push (ascii_of_nat 10) (read_chars t2)
            else if Nat.eqb m 102 then push (ascii_of_nat 12) (read_chars t2)
            else if Nat.eqb m 114 then push (ascii_of_nat 13) (read_chars t2)
            else if Nat.eqb m 34 then push e (read_chars t2)
            else if Nat.eqb m 92 then push e (read_chars t2)
            else if Nat.eqb m 47 then push e (read_chars t2)
            else if Nat.eqb m 117 then
              match t2 with
              | String h1 (String h2 (String h3 (String h4 t6))) =>
                  match hex_value h1, hex_value h2,
                        hex_value h3, hex_value h4 with
                  | Some 0, Some 0, Some a, Some b =>
                      push (ascii_of_nat (16 * a + b)) (read_chars t6)
                  | _, _, _, _ => None
                  end
              | _ => None
              end
            else None
        end
      else push c (read_chars t1)
  end.

Definition read_string (t : string) : option (string * string) :=
  match t with
  | EmptyString => None
  | String c t1 =>
      if Nat.eqb (nat_of_ascii c) 34 then read_chars t1 else None
  end.

(** [j.k] for an object [j]; [undefined] is [None]. *)
Definition field (j : value) (k : string) : option value :=
  match j with
  | Str _ => None
  | Object fields =>
      option_map snd (find (fun kv => String.eqb (fst kv) k) fields)
  end.

End JSON.


(** ** Requests, responses and the worker's environment *)

(** The inbound [Request].  [request.url] is kept parsed: [pathname] and
    [search] are the fields of [new URL(request.url)]; a body is [null]
    ([None]) or a stream, kept as its content. *)
Record Request := {
  method : string;
  pathname : string;
  search : string;
  req_headers : Headers.t;
  req_body : option string
}.

Record Response := {
  status : Z;
  statusText : string;
  headers : Headers.t;
  body : option string
}.

(** [env]: the secrets bound to the worker, [undefined] when not set. *)
Record Env := {
  OPENAI_API_KEY : option string;
  ANTHROPIC_API_KEY : option string
}.

(** A thrown [Error]. *)
Record Error := { message : string }.

(** What the runtime chooses: the message of the error thrown for each
    refusal, and the status text of a response constructed without one
    (the empty string by the standard, the reason phrase on workerd). *)
Record Runtime := {
  error_message : Failure -> string;
  default_statusText : Z -> string
}.

Definition thrown (rt : Runtime) (f : Failure) : Error :=
  {| message := error_message rt f |}.

(** A body handed to the [Response] constructor. *)
Inductive BodyInit :=
| Text (s : string)
| Stream (s : string).

Definition body_content (b : BodyInit) : string :=
  match b with Text s => s | Stream s => s end.

Record ResponseInit := {
  init_status : option Z;
  init_statusText : option string;
  init_headers : Headers.init
}.

Definition status_in_range (s : Z) : bool :=
  andb (Z.leb 200 s) (Z.leb s 599).

(** The reason-phrase production: tab, space, visible characters and
    bytes from 128 up. *)
Definition is_reason_phrase (text : string) : bool :=
  Headers.all_chars
    (fun c =>
       let n := nat_of_ascii c in
       orb (Nat.eqb n 9) (andb (Nat.leb 32 n) (negb (Nat.eqb n 127))))
    text.

Definition null_body_status (s : Z) : bool :=
  existsb (Z.eqb s) [101; 103; 204; 205; 304]%Z.

(** [new Response(body, init)].  The status, 200 by default, must lie in
    200..599 and a given status text must be a reason phrase; the headers
    are filled from [init.headers]; a body is refused on a null body
    status, and a string body without a [Content-Type] header gets the
    text/plain one. *)
Definition new_Response (rt : Runtime) (b : option BodyInit) (i : ResponseInit)
  : Result Response :=
  let st := match init_status i with Some s => s | None => 200%Z end in
  if negb (status_in_range st) then Err (StatusOutOfRange st)
  else
    (text <- match init_statusText i with
             | Some text =>
                 if negb (is_reason_phrase text)
                 then Err (InvalidStatusText text)
                 else Ok text
             | None => Ok (default_statusText rt st)
             end ;;
     hs <- Headers.new (init_headers i) ;;
     hs <- match b with
           | None => Ok hs
           | Some content =>
               if null_body_status st then Err (BodyOnNullBodyStatus st)
               else
                 match content with
                 | Text _ =>
                     if Headers.has hs "Content-Type" then Ok hs
                     else Headers.append hs "Content-Type"
                            "text/plain;charset=UTF-8"
                 | Stream _ => Ok hs
                 end
           end ;;
     Ok {| status := st;
           statusText := text;
           headers := hs;
           body := option_map body_content b |})%result.

(** The arguments of one upstream [fetch(url, { method, headers, body })]. *)
Record FetchCall := {
  f_url : string;
  f_method : string;
  f_headers : Headers.t;
  f_body : option string
}.

(** How the promise returned by [fetch] settles. *)
Inductive Settled :=
| Fulfilled (r : Response)
| Rejected (e : Error).

(** ** Effects and exceptions *)

Inductive Prog (A : Type) : Type :=
| Ret (a : A)
| Throw (e : Error)
| Fetch (call : FetchCall) (k : Settled -> Prog A)
| Now (k : string -> Prog A).

Arguments Ret {A} a.
Arguments Throw {A} e.
Arguments Fetch {A} call k.
Arguments Now {A} k.

Fixpoint bind {A B : Type} (p : Prog A) (k : A -> Prog B) : Prog B :=
  match p with
  | Ret a => k a
  | Throw e => Throw e
  | Fetch call k' => Fetch call (fun s => bind (k' s) k)
  | Now k' => Now (fun t => bind (k' t) k)
  end.

(** [try { p } catch (error) { handler }] *)
Fixpoint try_catch {A : Type} (p : Prog A) (handler : Error -> Prog A)
  : Prog A :=
  match p with
  | Ret a => Ret a
  | Throw e => handler e
  | Fetch call k => Fetch call (fun s => try_catch (k s) handler)
  | Now k => Now (fun t => try_catch (k t) handler)
  end.

Declare Scope prog_scope.
Delimit Scope prog_scope with prog.
Notation "x <- p ;; k" := (bind p (fun x => k))
  (at level 61, p at next level, right associativity) : prog_scope.

(** [await fetch(url, init)]: a rejection is thrown. *)
Definition await_fetch (call : FetchCall) : Prog Response :=
  Fetch call
    (fun settled =>
       match settled with
       | Fulfilled response => Ret response
       | Rejected error => Throw error
       end).

(** The world outside the worker: the runtime it runs on, the upstream,
    which answers a call knowing the calls made before it, and the clock,
    which gives [new Date().toISOString()]. *)
Record World := {
  runtime : Runtime;
  upstream : list FetchCall -> FetchCall -> Settled;
  clock : string
}.

(** How a run of the worker ends. *)
Inductive Outcome (A : Type) : Type :=
| Returned (a : A)
| Threw (e : Error).

Arguments Returned {A} a.
Arguments Threw {A} e.

Fixpoint run {A} (w : World) (made : list FetchCall) (p : Prog A)
  : Outcome A * list FetchCall :=
  match p with
  | Ret a => (Returned a, made)
  | Throw e => (Threw e, made)
  | Fetch call k => run w (made ++ [call])%list (k (upstream w made call))
  | Now k => run w made (k (clock w))
  end.

(** ** The worker *)

Definition corsHeaders : Obj.t :=
  [ ("Access-Control-Allow-Origin", "*");
    ("Access-Control-Allow-Methods", "GET, POST, PUT, DELETE, OPTIONS");
    ("Access-Control-Allow-Headers",
     "Content-Type, Authorization, X-Requested-With") ].

(** [{ 'Content-Type': 'application/json', ...corsHeaders }] *)
Definition jsonHeaders : Headers.init :=
  Headers.FromObject
    (Obj.spread [("Content-Type", "application/json")] corsHeaders).

Section Worker.

Variable rt : Runtime.

(** A built-in called by the worker: its refusal is thrown. *)
Definition invoke {A : Type} (r : Result A) : Prog A :=
  match r with
  | Ok a => Ret a
  | Err f => Throw (thrown rt f)
  end.

(** [new Response(JSON.stringify(j), { status, headers: jsonHeaders })] *)
Definition jsonResponse (j : JSON.value) (st : option Z) : Result Response :=
  new_Response rt (Some (Text (JSON.stringify j)))
    {| init_status := st; init_statusText := None;
       init_headers := jsonHeaders |}.

Definition handleCORS : Result Response :=
  new_Response rt None
    {| init_status := Some 204%Z; init_statusText := None;
       init_headers := Headers.FromObject corsHeaders |}.

(** The rest of the [try] block once [await fetch(...)] has given
    [response], shared by both handlers. *)
Definition relay (response : Response) : Result Response :=
  (responseHeaders <- Headers.new (Headers.FromHeaders (headers response)) ;;
   responseHeaders <-
     fold_left
       (fun acc kv => h <- acc ;; Headers.set h (fst kv) (snd kv))
       (Obj.entries corsHeaders) (Ok responseHeaders) ;;
   new_Response rt (option_map Stream (body response))
     {| init_status := Some (status response);
        init_statusText := Some (statusText response);
        init_headers := Headers.FromHeaders responseHeaders |})%result.

(** The [catch (error)] block, shared by both handlers. *)
Definition proxyError (error : Error) : Result Response :=
  jsonResponse
    (JSON.Object [ ("error", JSON.Str "Proxy Error");
                   ("message", JSON.Str (message error)) ])
    (Some 502%Z).

(** [request.method !== 'GET' ? request.body : undefined] *)
Definition forwardedBody (request : Request) : option string :=
  if negb (JS.strict_eq (method request) "GET") then req_body request
  else None.

Definition handleOpenAI (request : Request) (env : Env) (path : string)
  : Prog Response :=
  match JS.truthy (OPENAI_API_KEY env) with
  | None =>
      invoke (jsonResponse
              (JSON.Object
                 [ ("error", JSON.Str "Configuration Error");
                   ("message",
                    JSON.Str
                      "OPENAI_API_KEY not configured in worker secrets") ])
              (Some 500%Z))
  | Some key =>
      let openaiUrl := "https://api.openai.com" ++ path in
      (headers <- invoke (Headers.new
                            (Headers.FromHeaders (req_headers request))) ;;
       headers <- invoke (Headers.set headers "Authorization"
                            ("Bearer " ++ key)) ;;
       headers <- invoke (Headers.delete headers "Host") ;;
       try_catch
         (response <- await_fetch {| f_url := openaiUrl;
                                     f_method := method request;
                                     f_headers := headers;
                                     f_body := forwardedBody request |} ;;
          invoke (relay response))
         (fun error => invoke (proxyError error)))%prog
  end.

Definition handleAnthropic (request : Request) (env : Env) (path : string)
  : Prog Response :=
  match JS.truthy (ANTHROPIC_API_KEY env) with
  | None =>
      invoke (jsonResponse
              (JSON.Object
                 [ ("error", JSON.Str "Configuration Error");
                   ("message",
                    JSON.Str
                      "ANTHROPIC_API_KEY not configured in worker secrets") ])
              (Some 500%Z))
  | Some key =>
      let anthropicPath := JS.replace path "/anthropic" EmptyString in
      let anthropicUrl := "https://api.anthropic.com" ++ anthropicPath in
      (headers <- invoke (Headers.new
                            (Headers.FromHeaders (req_headers request))) ;;
       headers <- invoke (Headers.set headers "x-api-key" key) ;;
       headers <- invoke (Headers.set headers "anthropic-version"
                            "2023-06-01") ;;
       headers <- invoke (Headers.delete headers "Host") ;;
       try_catch
         (response <- await_fetch {| f_url := anthropicUrl;
                                     f_method := method request;
                                     f_headers := headers;
                                     f_body := forwardedBody request |} ;;
          invoke (relay response))
         (fun error => invoke (proxyError error)))%prog
  end.

(** The [fetch(request, env, ctx)] handler of the default export. *)
Definition fetch (request : Request) (env : Env) : Prog Response :=
  if JS.strict_eq (method request) "OPTIONS" then invoke handleCORS
  else
    let path := pathname request in
    if orb (JS.strict_eq path "/health") (JS.strict_eq path "/") then
      Now (fun timestamp =>
        invoke (jsonResponse
                (JSON.Object
                   [ ("status", JSON.Str "ok");
                     ("service", JSON.Str "guidedog");
                     ("timestamp", JSON.Str timestamp);
                     ("endpoints",
                      JSON.Object [ ("openai", JSON.Str "/v1/*");
                                    ("anthropic", JSON.Str "/anthropic/*") ]) ])
                None))
    else if JS.startsWith path "/v1/" then handleOpenAI request env path
    else if JS.startsWith path "/anthropic/" then
      handleAnthropic request env path
    else
      invoke (jsonResponse
              (JSON.Object
                 [ ("error", JSON.Str "Not Found");
                   ("message",
                    JSON.Str
                      "Use /v1/* for OpenAI or /anthropic/* for Anthropic") ])
              (Some 404%Z)).

End Worker.

(** One request served in world [w]: how the worker ends and the upstream
    calls made for it, in order. *)
Definition serve (w : World) (request : Request) (env : Env)
  : Outcome Response * list FetchCall :=
  run w [] (fetch (runtime w) request env).

Definition response_of w request env : Outcome Response :=
  fst (serve w request env).
Definition upstream_calls w request env : list FetchCall :=
  snd (serve w request env).

(** ** Vocabulary of the contract *)

Definition cors_names : list string := map fst corsHeaders.

(** The CORS header set is readable from [h]. *)
Definition carries_cors (h : Headers.t) : Prop :=
  Headers.get h "Access-Control-Allow-Origin" = Some "*" /\
  Headers.get h "Access-Control-Allow-Methods"
    = Some "GET, POST, PUT, DELETE, OPTIONS" /\
  Headers.get h "Access-Control-Allow-Headers"
    = Some "Content-Type, Authorization, X-Requested-With".

(** The response body is the JSON text of [j]. *)
Definition json_body (r : Response) (j : JSON.value) : Prop :=
  body r = Some (JSON.stringify j).

(** A request that passed the preflight test and whose path selects the
    OpenAI, respectively the Anthropic, handler. *)
Definition routed_openai (request : Request) : Prop :=
  method request <> "OPTIONS" /\ JS.startsWith (pathname request) "/v1/" = true.

Definition routed_anthropic (request : Request) : Prop :=
  method request <> "OPTIONS" /\
  JS.startsWith (pathname request) "/anthropic/" = true.


(** The shape of the upstream call for the Anthropic route. *)
Definition anthropic_call (request : Request) (key : string) (call : FetchCall)
  : Prop :=
  (exists rest,
      pathname request = "/anthropic" ++ rest /\
      f_url call = "https://api.anthropic.com" ++ rest) /\
  Headers.get (f_headers call) "x-api-key" = Some key /\
  Headers.get (f_headers call) "anthropic-version" = Some "2023-06-01" /\
  Headers.has (f_headers call) "Host" = false /\
  Headers.except ["x-api-key"; "anthropic-version"; "Host"] (f_headers call)
    = Headers.except ["x-api-key"; "anthropic-version"; "Host"]
        (req_headers request).

(** [v] is a header value as it stands: it has no whitespace to trim at
    either end and holds no NUL, LF or CR. *)
Definition header_value (v : string) : Prop :=
  Headers.strip_leading v = v /\ Headers.strip_trailing v = v /\
  Headers.safe v = true.

(** [v] is accepted by the [Headers] methods: once trimmed, it holds no
    NUL, LF or CR. *)
Definition accepted (v : string) : Prop :=
  Headers.safe (Headers.normalize v) = true.


(** [up] is a response the [Response] constructor builds again from its
    own status, status text and body. *)
Definition constructible (up : Response) : Prop :=
  status_in_range (status up) = true /\
  is_reason_phrase (statusText up) = true /\
  (null_body_status (status up) = true -> body up = None).

(** The JSON response of the worker's own with status [st] and body [j],
    as the constructor builds it. *)
Definition own_response (rt : Runtime) (j : JSON.value) (st : Z) : Response :=
  {| status := st;
     statusText := default_statusText rt st;
     headers :=
       [ ("content-type", "application/json");
         ("access-control-allow-origin", "*");
         ("access-control-allow-methods", "GET, POST, PUT, DELETE, OPTIONS");
         ("access-control-allow-headers",
          "Content-Type, Authorization, X-Requested-With") ];
     body := Some (JSON.stringify j) |}.

(** The 502 response of the [catch] block for [error]. *)
Definition error_response (rt : Runtime) (error : Error) : Response :=
  own_response rt
    (JSON.Object [ ("error", JSON.Str "Proxy Error");
                   ("message", JSON.Str (message error)) ])
    502%Z.

(** What both handlers answer once the upstream promise has settled: the
    relayed response, or the 502 response for the error thrown in the
    [try] block. *)
Definition answer (rt : Runtime) (s : Settled) : Response :=
  match s with
  | Fulfilled response =>
      match relay rt response with
      | Ok relayed => relayed
      | Err f => error_response rt (thrown rt f)
      end
  | Rejected error => error_response rt error
  end.

(** The preflight response, as the constructor builds it. *)
Definition preflight_response (rt : Runtime) : Response :=
  {| status := 204%Z;
     statusText := default_statusText rt 204%Z;
     headers :=
       [ ("access-control-allow-origin", "*");
         ("access-control-allow-methods", "GET, POST, PUT, DELETE, OPTIONS");
         ("access-control-allow-headers",
          "Content-Type, Authorization, X-Requested-With") ];
     body := None |}.

(** [up] with the three CORS headers set on its header list. *)
Definition relayed (up : Response) : Response :=
  {| status := status up;
     statusText := statusText up;
     headers :=
       Headers.list_set
         (Headers.list_set
            (Headers.list_set (headers up) "Access-Control-Allow-Origin" "*")
            "Access-Control-Allow-Methods" "GET, POST, PUT, DELETE, OPTIONS")
         "Access-Control-Allow-Headers"
         "Content-Type, Authorization, X-Requested-With";
     body := body up |}.

(** ** Sample worlds, environments and requests *)

Module Sample.

(** A runtime; the texts are examples. *)
Definition rt : Runtime :=
  {| error_message :=
       fun f =>
         match f with
         | InvalidHeaderName _ => "Invalid header name."
         | InvalidHeaderValue _ _ => "Invalid header value."
         | StatusOutOfRange _ => "Status code out of the range 200 to 599."
         | InvalidStatusText _ => "Invalid statusText."
         | BodyOnNullBodyStatus _ =>
             "Response with null body status cannot have body."
         end;
     default_statusText :=
       fun st =>
         if Z.eqb st 200 then "OK"
         else if Z.eqb st 204 then "No Content"
         else if Z.eqb st 404 then "Not Found"
         else if Z.eqb st 500 then "Internal Server Error"
         else if Z.eqb st 502 then "Bad Gateway"
         else EmptyString |}.

Definition upstream_ok : Response :=
  {| status := 201%Z;
     statusText := "Created";
     headers := [ ("content-type", "application/json");
                  ("access-control-allow-origin", "https://example.org");
                  ("set-cookie", "a=1");
                  ("set-cookie", "b=2") ];
     body := Some "{}" |}.

(** The answer to a WebSocket upgrade. *)
Definition upstream_upgrade : Response :=
  {| status := 101%Z;
     statusText := "Switching Protocols";
     headers := [ ("upgrade", "websocket"); ("connection", "Upgrade") ];
     body := None |}.

Definition online : World :=
  {| runtime := rt;
     upstream := fun _ _ => Fulfilled upstream_ok;
     clock := "2026-01-01T00:00:00.000Z" |}.

Definition upgrading : World :=
  {| runtime := rt;
     upstream := fun _ _ => Fulfilled upstream_upgrade;
     clock := "2026-01-01T00:00:00.000Z" |}.

Definition offline : World :=
  {| runtime := rt;
     upstream := fun _ _ => Rejected {| message := "connect ECONNREFUSED" |};
     clock := "2026-01-01T00:00:00.000Z" |}.

Definition keys : Env :=
  {| OPENAI_API_KEY := Some "sk-test"; ANTHROPIC_API_KEY := Some "ak-test" |}.

Definition no_keys : Env :=
  {| OPENAI_API_KEY := None; ANTHROPIC_API_KEY := None |}.

(** A key pasted with a line break in the middle. *)
Definition broken_key : string := "sk-" ++ String "010" "test".

Definition broken_keys : Env :=
  {| OPENAI_API_KEY := Some broken_key; ANTHROPIC_API_KEY := Some broken_key |}.

Definition browser_headers : Headers.t :=
  [ ("host", "guidedog.kpremks.workers.dev");
    ("content-type", "application/json");
    ("authorization", "Bearer from-client") ].

Definition req (m p : string) : Request :=
  {| method := m; pathname := p; search := "?trace=1";
     req_headers := browser_headers; req_body := Some "{}" |}.

End Sample.

(** * Properties *)

(** ** Strings *)

Lemma prefix_split (p s : string) :
  String.prefix p s = true -> s = p ++ JS.slice (String.length p) s.
Proof.
  revert s; induction p as [|a p IH]; intros s H.
  - reflexivity.
  - destruct s as [|b s]; simpl in H; [discriminate|].
    destruct (ascii_dec a b) as [->|]; [|discriminate].
    simpl. f_equal. now apply IH.
Qed.

Lemma prefix_app (p r : string) : String.prefix p (p ++ r) = true.
Proof.
  induction p as [|a p IH]; simpl.
  - now destruct r.
  - destruct (ascii_dec a a); [assumption|congruence].
Qed.

Lemma slice_app (p r : string) : JS.slice (String.length p) (p ++ r) = r.
Proof. induction p; simpl; auto. Qed.

Lemma startsWith_inv (s p : string) :
  JS.startsWith s p = true -> exists r, s = p ++ r.
Proof. intros H. eexists. now apply prefix_split. Qed.

Lemma replace_found (s pat rep : string) :
  String.prefix pat s = true ->
  JS.replace s pat rep = rep ++ JS.slice (String.length pat) s.
Proof. intros H. destruct s; cbn [JS.replace]; rewrite H; reflexivity. Qed.

Lemma replace_leading (p r rep : string) :
  JS.replace (p ++ r) p rep = rep ++ r.
Proof. now rewrite replace_found, slice_app by apply prefix_app. Qed.

Lemma strict_eq_neq (a b : string) : a <> b -> JS.strict_eq a b = false.
Proof. intros. now apply String.eqb_neq. Qed.

Lemma truthy_inv (v : option string) (k : string) :
  JS.truthy v = Some k <-> v = Some k /\ k <> EmptyString.
Proof.
  destruct v as [[|c s]|]; simpl; split; intros H;
    try discriminate; try (destruct H; congruence).
  inversion H. split; [reflexivity|discriminate].
Qed.

(** ** JSON string literals *)

Lemma append_assoc (a b c : string) : (a ++ b) ++ c = a ++ (b ++ c).
Proof. induction a; simpl; congruence. Qed.

Lemma append_inv_head (p a b : string) : p ++ a = p ++ b -> a = b.
Proof. induction p; simpl; intros H; [assumption|]. injection H. auto. Qed.

Lemma read_escape (c : ascii) (t : string) :
  JSON.read_chars (JSON.escape c ++ t) = JSON.push c (JSON.read_chars t).
Proof. destruct c as [[] [] [] [] [] [] [] []]; reflexivity. Qed.

Lemma read_escape_all (s rest : string) :
  JSON.read_chars (JSON.escape_all s ++ JSON.dquote ++ rest) = Some (s, rest).
Proof.
  induction s as [|c s IH]; [reflexivity|].
  cbn [JSON.escape_all]. now rewrite append_assoc, read_escape, IH.
Qed.

(** Reading back what [quote] wrote gives the string it was given. *)
Lemma read_string_quote (s rest : string) :
  JSON.read_string (JSON.quote s ++ rest) = Some (s, rest).
Proof.
  unfold JSON.quote. rewrite !append_assoc. cbn.
  apply read_escape_all.
Qed.

Lemma quote_inj (a b : string) : JSON.quote a = JSON.quote b -> a = b.
Proof.
  intros H.
  assert (E : JSON.read_string (JSON.quote a ++ EmptyString)
              = JSON.read_string (JSON.quote b ++ EmptyString))
    by now rewrite H.
  rewrite !read_string_quote in E. congruence.
Qed.

(** ** Header lists *)

Section HeadersFacts.

Implicit Types (h : Headers.t) (n m v : string) (e : string * string).

Lemma lower_ascii_idem (c : ascii) :
  JS.lower_ascii (JS.lower_ascii c) = JS.lower_ascii c.
Proof. destruct c as [[] [] [] [] [] [] [] []]; reflexivity. Qed.

Lemma toLowerCase_idem (s : string) :
  JS.toLowerCase (JS.toLowerCase s) = JS.toLowerCase s.
Proof.
  induction s as [|c s IH]; simpl; [reflexivity|].
  now rewrite lower_ascii_idem, IH.
Qed.

Lemma name_eqb_refl n : Headers.name_eqb n n = true.
Proof. apply String.eqb_refl. Qed.

Lemma name_eqb_sym n m : Headers.name_eqb n m = Headers.name_eqb m n.
Proof. apply String.eqb_sym. Qed.

Lemma name_eqb_lower n m :
  Headers.name_eqb (JS.toLowerCase n) m = Headers.name_eqb n m.
Proof. unfold Headers.name_eqb. now rewrite toLowerCase_idem. Qed.

Lemma name_eqb_same n n' m :
  Headers.name_eqb n n' = true ->
  Headers.name_eqb n m = Headers.name_eqb n' m.
Proof.
  unfold Headers.name_eqb. intros H.
  apply String.eqb_eq in H. now rewrite H.
Qed.

Lemma misses_new_entry P n v : Headers.misses P n -> P (JS.toLowerCase n, v) = false.
Proof.
  intros H. apply H. unfold Headers.is_named. simpl.
  rewrite name_eqb_lower. apply name_eqb_refl.
Qed.

Lemma misses_named n m :
  Headers.name_eqb n m = false -> Headers.misses (Headers.is_named m) n.
Proof.
  intros H e He. unfold Headers.is_named in *.
  now rewrite (name_eqb_same _ _ m He).
Qed.

Lemma existsb_name_same n n' (ns : list string) :
  Headers.name_eqb n n' = true ->
  existsb (Headers.name_eqb n) ns = existsb (Headers.name_eqb n') ns.
Proof.
  intros H. induction ns as [|x ns IH]; simpl; [reflexivity|].
  now rewrite (name_eqb_same _ _ x H), IH.
Qed.

Lemma misses_except (ns : list string) n :
  existsb (Headers.name_eqb n) ns = true ->
  Headers.misses (fun e => negb (existsb (Headers.name_eqb (fst e)) ns)) n.
Proof.
  intros H e He. unfold Headers.is_named in He.
  now rewrite (existsb_name_same _ _ ns He), H.
Qed.

Lemma filter_delete_missed P h n :
  Headers.misses P n -> filter P (Headers.list_delete h n) = filter P h.
Proof.
  intros HP. unfold Headers.list_delete.
  induction h as [|e h IH]; simpl; [reflexivity|].
  destruct (Headers.is_named n e) eqn:E; simpl.
  - now rewrite (HP e E).
  - now rewrite IH.
Qed.

Lemma filter_set_missed P h n v :
  Headers.misses P n -> filter P (Headers.list_set h n v) = filter P h.
Proof.
  intros HP. induction h as [|e h IH]; simpl.
  - now rewrite misses_new_entry.
  - destruct (Headers.is_named n e) eqn:E; simpl.
    + now rewrite misses_new_entry, (HP e E), filter_delete_missed.
    + now rewrite IH.
Qed.

Lemma filter_delete_named h n :
  filter (Headers.is_named n) (Headers.list_delete h n) = [].
Proof.
  unfold Headers.list_delete. induction h as [|e h IH]; simpl; [reflexivity|].
  destruct (Headers.is_named n e) eqn:E; simpl; [assumption|].
  now rewrite E.
Qed.

Lemma filter_set_named h n v :
  filter (Headers.is_named n) (Headers.list_set h n v) = [(JS.toLowerCase n, v)].
Proof.
  assert (N : Headers.is_named n (JS.toLowerCase n, v) = true).
  { unfold Headers.is_named. simpl. rewrite name_eqb_lower.
    apply name_eqb_refl. }
  induction h as [|e h IH]; simpl.
  - now rewrite N.
  - destruct (Headers.is_named n e) eqn:E; simpl.
    + now rewrite N, filter_delete_named.
    + now rewrite E.
Qed.

Lemma is_named_same n n' e :
  Headers.name_eqb n n' = true ->
  Headers.is_named n e = Headers.is_named n' e.
Proof.
  intros H. unfold Headers.is_named.
  now rewrite !(name_eqb_sym (fst e)), (name_eqb_same _ _ (fst e) H).
Qed.

Lemma values_same h n n' :
  Headers.name_eqb n n' = true -> Headers.values h n = Headers.values h n'.
Proof.
  intros H. unfold Headers.values. f_equal.
  apply filter_ext. intros e. now apply is_named_same.
Qed.

(** [set] then [get], under any spelling of the name. *)
Lemma get_set h n n' v :
  Headers.name_eqb n n' = true -> Headers.get (Headers.list_set h n v) n' = Some v.
Proof.
  intros H. unfold Headers.get.
  rewrite <- (values_same _ _ _ H). unfold Headers.values.
  now rewrite filter_set_named.
Qed.

Lemma get_set_other h n m v :
  Headers.name_eqb n m = false ->
  Headers.get (Headers.list_set h n v) m = Headers.get h m.
Proof.
  intros H. unfold Headers.get, Headers.values.
  now rewrite filter_set_missed by now apply misses_named.
Qed.

Lemma get_delete_other h n m :
  Headers.name_eqb n m = false ->
  Headers.get (Headers.list_delete h n) m = Headers.get h m.
Proof.
  intros H. unfold Headers.get, Headers.values.
  now rewrite filter_delete_missed by now apply misses_named.
Qed.

Lemma has_delete h n : Headers.has (Headers.list_delete h n) n = false.
Proof.
  unfold Headers.has, Headers.list_delete.
  induction h as [|e h IH]; simpl; [reflexivity|].
  destruct (Headers.is_named n e) eqn:E; simpl; [assumption|].
  now rewrite E.
Qed.

Lemma get_delete h n : Headers.get (Headers.list_delete h n) n = None.
Proof.
  unfold Headers.get, Headers.values. now rewrite filter_delete_named.
Qed.

Lemma except_set (ns : list string) h n v :
  existsb (Headers.name_eqb n) ns = true ->
  Headers.except ns (Headers.list_set h n v) = Headers.except ns h.
Proof.
  intros H. unfold Headers.except.
  now rewrite filter_set_missed by now apply misses_except.
Qed.

Lemma except_delete (ns : list string) h n :
  existsb (Headers.name_eqb n) ns = true ->
  Headers.except ns (Headers.list_delete h n) = Headers.except ns h.
Proof.
  intros H. unfold Headers.except.
  now rewrite filter_delete_missed by now apply misses_except.
Qed.

End HeadersFacts.

(** ** The validating methods *)

Lemma set_accepted h n v :
  Headers.valid_name n = true -> accepted v ->
  Headers.set h n v = Ok (Headers.list_set h n (Headers.normalize v)).
Proof.
  unfold accepted, Headers.set, Headers.validated. now intros -> ->.
Qed.

Lemma set_refused h n v :
  Headers.valid_name n = true -> ~ accepted v ->
  Headers.set h n v = Err (InvalidHeaderValue n v).
Proof.
  unfold accepted, Headers.set, Headers.validated. intros -> H.
  now destruct (Headers.safe (Headers.normalize v)).
Qed.

Lemma delete_valid h n :
  Headers.valid_name n = true ->
  Headers.delete h n = Ok (Headers.list_delete h n).
Proof. unfold Headers.delete. now intros ->. Qed.

Lemma accepted_dec v : accepted v \/ ~ accepted v.
Proof.
  unfold accepted. destruct (Headers.safe (Headers.normalize v));
    [now left | right; discriminate].
Qed.

Lemma header_value_normalize v : header_value v -> Headers.normalize v = v.
Proof. intros (L & T & _). unfold Headers.normalize. now rewrite L, T. Qed.

Lemma header_value_accepted v : header_value v -> accepted v.
Proof.
  intros H. unfold accepted. rewrite header_value_normalize by exact H.
  apply H.
Qed.



(** ** The Response constructor *)

Section Constructor.

Variable rt : Runtime.

Lemma jsonResponse_ok j st :
  status_in_range st = true -> null_body_status st = false ->
  jsonResponse rt j (Some st) = Ok (own_response rt j st).
Proof.
  intros R N. unfold jsonResponse, new_Response.
  cbn [init_status init_statusText init_headers]. rewrite R, N. reflexivity.
Qed.

Lemma jsonResponse_default j :
  jsonResponse rt j None = Ok (own_response rt j 200%Z).
Proof. reflexivity. Qed.

Lemma handleCORS_ok : handleCORS rt = Ok (preflight_response rt).
Proof. reflexivity. Qed.

Lemma proxyError_ok e : proxyError rt e = Ok (error_response rt e).
Proof. now apply jsonResponse_ok. Qed.

Lemma relay_ok up : constructible up -> relay rt up = Ok (relayed up).
Proof.
  intros (R & P & B). unfold relay, new_Response, relayed.
  cbn [Headers.new and_then Obj.entries corsHeaders fold_left fst snd].
  rewrite !set_accepted by reflexivity.
  cbn [and_then init_status init_statusText init_headers Headers.new].
  rewrite R, P. cbn [negb and_then].
  destruct (body up) as [b|]; [|reflexivity].
  destruct (null_body_status (status up)); [|reflexivity].
  now specialize (B eq_refl).
Qed.

Lemma relay_inv up r :
  relay rt up = Ok r -> constructible up /\ r = relayed up.
Proof.
  intros H.
  assert (C : constructible up).
  { revert H. unfold relay, new_Response, constructible.
    cbn [Headers.new and_then Obj.entries corsHeaders fold_left fst snd].
    rewrite !set_accepted by reflexivity.
    cbn [and_then init_status init_statusText init_headers Headers.new].
    destruct (status_in_range (status up)); [|discriminate].
    destruct (is_reason_phrase (statusText up)); [|discriminate].
    cbn [negb and_then].
    destruct (body up) as [b|]; [|now repeat split].
    destruct (null_body_status (status up)); [discriminate|].
    now repeat split. }
  split; [exact C|]. rewrite (relay_ok up C) in H. congruence.
Qed.

End Constructor.

(** ** Routing *)

Section Routing.

Variables (w : World) (request : Request) (env : Env).

Lemma serve_options :
  method request = "OPTIONS" ->
  serve w request env = (Returned (preflight_response (runtime w)), []).
Proof. intros H. unfold serve, fetch. rewrite H. reflexivity. Qed.

Lemma serve_health :
  method request <> "OPTIONS" ->
  pathname request = "/" \/ pathname request = "/health" ->
  serve w request env
  = (Returned
       (own_response (runtime w)
          (JSON.Object
             [ ("status", JSON.Str "ok");
               ("service", JSON.Str "guidedog");
               ("timestamp", JSON.Str (clock w));
               ("endpoints",
                JSON.Object [ ("openai", JSON.Str "/v1/*");
                              ("anthropic", JSON.Str "/anthropic/*") ]) ])
          200%Z), []).
Proof.
  intros Hm Hp. unfold serve, fetch. rewrite (strict_eq_neq _ _ Hm).
  destruct Hp as [-> | ->]; reflexivity.
Qed.

Lemma serve_openai :
  routed_openai request ->
  serve w request env
  = run w [] (handleOpenAI (runtime w) request env (pathname request)).
Proof.
  intros [Hm Hp]. unfold serve, fetch. rewrite (strict_eq_neq _ _ Hm), Hp.
  destruct (startsWith_inv _ _ Hp) as [r ->]. reflexivity.
Qed.

Lemma serve_anthropic :
  routed_anthropic request ->
  serve w request env
  = run w [] (handleAnthropic (runtime w) request env (pathname request)).
Proof.
  intros [Hm Hp]. unfold serve, fetch. rewrite (strict_eq_neq _ _ Hm), Hp.
  destruct (startsWith_inv _ _ Hp) as [r ->]. reflexivity.
Qed.

Lemma serve_not_found :
  method request <> "OPTIONS" ->
  pathname request <> "/" -> pathname request <> "/health" ->
  JS.startsWith (pathname request) "/v1/" = false ->
  JS.startsWith (pathname request) "/anthropic/" = false ->
  serve w request env
  = (Returned
       (own_response (runtime w)
          (JSON.Object
             [ ("error", JSON.Str "Not Found");
               ("message",
                JSON.Str "Use /v1/* for OpenAI or /anthropic/* for Anthropic") ])
          404%Z), []).
Proof.
  intros Hm H1 H2 H3 H4. unfold serve, fetch.
  now rewrite (strict_eq_neq _ _ Hm), (strict_eq_neq _ _ H1),
    (strict_eq_neq _ _ H2), H3, H4.
Qed.

(** The five routes cover every request. *)
Lemma route_cases :
  method request = "OPTIONS" \/
  (method request <> "OPTIONS" /\
   (pathname request = "/" \/ pathname request = "/health")) \/
  routed_openai request \/
  routed_anthropic request \/
  (method request <> "OPTIONS" /\
   pathname request <> "/" /\ pathname request <> "/health" /\
   JS.startsWith (pathname request) "/v1/" = false /\
   JS.startsWith (pathname request) "/anthropic/" = false).
Proof.
  unfold routed_openai, routed_anthropic.
  destruct (string_dec (method request) "OPTIONS"); [now left|right].
  destruct (string_dec (pathname request) "/"); [now left; auto|].
  destruct (string_dec (pathname request) "/health"); [now left; auto|].
  right.
  destruct (JS.startsWith (pathname request) "/v1/"); [now left|right].
  destruct (JS.startsWith (pathname request) "/anthropic/"); [now left|right].
  repeat split; assumption.
Qed.

End Routing.

(** ** The two handlers *)

Section Handlers.

Variables (w : World) (request : Request) (env : Env).

Lemma openai_unconfigured made path :
  JS.truthy (OPENAI_API_KEY env) = None ->
  run w made (handleOpenAI (runtime w) request env path)
  = (Returned
       (own_response (runtime w)
          (JSON.Object
             [ ("error", JSON.Str "Configuration Error");
               ("message",
                JSON.Str "OPENAI_API_KEY not configured in worker secrets") ])
          500%Z), made).
Proof. intros H. unfold handleOpenAI. now rewrite H. Qed.

Lemma anthropic_unconfigured made path :
  JS.truthy (ANTHROPIC_API_KEY env) = None ->
  run w made (handleAnthropic (runtime w) request env path)
  = (Returned
       (own_response (runtime w)
          (JSON.Object
             [ ("error", JSON.Str "Configuration Error");
               ("message",
                JSON.Str "ANTHROPIC_API_KEY not configured in worker secrets") ])
          500%Z), made).
Proof. intros H. unfold handleAnthropic. now rewrite H. Qed.

(** The [try] and [catch] blocks of both handlers: one call, then the
    answer to what it gave. *)
Lemma run_try_catch made call :
  run w made
    (try_catch
       (bind (await_fetch call) (fun response => invoke (runtime w)
                                                   (relay (runtime w) response)))
       (fun error => invoke (runtime w) (proxyError (runtime w) error)))
  = (Returned (answer (runtime w) (upstream w made call)),
     (made ++ [call])%list).
Proof.
  cbn [await_fetch bind try_catch run]. unfold answer.
  destruct (upstream w made call) as [up|e]; cbn [bind try_catch].
  - destruct (relay (runtime w) up); cbn [invoke try_catch run];
      [reflexivity|]. now rewrite proxyError_ok.
  - now rewrite proxyError_ok.
Qed.

Lemma serve_openai_call key :
  routed_openai request ->
  JS.truthy (OPENAI_API_KEY env) = Some key ->
  accepted ("Bearer " ++ key) ->
  serve w request env
  = let call :=
      {| f_url := "https://api.openai.com" ++ pathname request;
         f_method := method request;
         f_headers :=
           Headers.list_delete
             (Headers.list_set (req_headers request) "Authorization"
                (Headers.normalize ("Bearer " ++ key))) "Host";
         f_body := forwardedBody request |} in
    (Returned (answer (runtime w) (upstream w [] call)), [call]).
Proof.
  intros R K A. rewrite (serve_openai w request env R).
  unfold handleOpenAI. rewrite K. cbn [Headers.new invoke bind].
  rewrite set_accepted by (reflexivity || exact A). cbn [invoke bind].
  rewrite delete_valid by reflexivity. cbn [invoke bind].
  now rewrite run_try_catch.
Qed.

Lemma serve_openai_refused key :
  routed_openai request ->
  JS.truthy (OPENAI_API_KEY env) = Some key ->
  ~ accepted ("Bearer " ++ key) ->
  serve w request env
  = (Threw (thrown (runtime w)
              (InvalidHeaderValue "Authorization" ("Bearer " ++ key))), []).
Proof.
  intros R K A. rewrite (serve_openai w request env R).
  unfold handleOpenAI. rewrite K. cbn [Headers.new invoke bind].
  rewrite set_refused by (reflexivity || exact A). reflexivity.
Qed.

Lemma serve_anthropic_call key :
  routed_anthropic request ->
  JS.truthy (ANTHROPIC_API_KEY env) = Some key ->
  accepted key ->
  serve w request env
  = let call :=
      {| f_url :=
           "https://api.anthropic.com"
             ++ JS.replace (pathname request) "/anthropic" EmptyString;
         f_method := method request;
         f_headers :=
           Headers.list_delete
             (Headers.list_set
                (Headers.list_set (req_headers request) "x-api-key"
                   (Headers.normalize key))
                "anthropic-version" "2023-06-01") "Host";
         f_body := forwardedBody request |} in
    (Returned (answer (runtime w) (upstream w [] call)), [call]).
Proof.
  intros R K A. rewrite (serve_anthropic w request env R).
  unfold handleAnthropic. rewrite K. cbn [Headers.new invoke bind].
  rewrite set_accepted by (reflexivity || exact A). cbn [invoke bind].
  rewrite set_accepted by reflexivity. cbn [invoke bind].
  rewrite delete_valid by reflexivity. cbn [invoke bind].
  now rewrite run_try_catch.
Qed.

Lemma serve_anthropic_refused key :
  routed_anthropic request ->
  JS.truthy (ANTHROPIC_API_KEY env) = Some key ->
  ~ accepted key ->
  serve w request env
  = (Threw (thrown (runtime w) (InvalidHeaderValue "x-api-key" key)), []).
Proof.
  intros R K A. rewrite (serve_anthropic w request env R).
  unfold handleAnthropic. rewrite K. cbn [Headers.new invoke bind].
  rewrite set_refused by (reflexivity || exact A). reflexivity.
Qed.

End Handlers.

(** ** Responses *)

Section Responses.

Variables (w : World) (request : Request) (env : Env).

(** A run ends in one of three ways: a response without any upstream call,
    the preflight one or a JSON one; one upstream call and the answer to
    what it gave; or a throw before any upstream call. *)
Lemma serve_cases :
  (exists r, serve w request env = (Returned r, []) /\
             (r = preflight_response (runtime w) \/
              exists j st, r = own_response (runtime w) j st)) \/
  (exists call,
      serve w request env
      = (Returned (answer (runtime w) (upstream w [] call)), [call])) \/
  (exists f, serve w request env = (Threw (thrown (runtime w) f), [])).
Proof.
  destruct (route_cases request)
    as [O | [[Hm Hp] | [R | [R | (Hm & H1 & H2 & H3 & H4)]]]].
  - left. eexists. split; [now apply serve_options|now left].
  - left. eexists. split; [now apply serve_health|right; eauto].
  - destruct (JS.truthy (OPENAI_API_KEY env)) as [key|] eqn:K.
    + destruct (accepted_dec ("Bearer " ++ key)) as [A|A].
      * right; left. eexists. now apply (serve_openai_call w request env key).
      * right; right. eexists.
        now apply (serve_openai_refused w request env key).
    + left. rewrite (serve_openai w request env R). eexists.
      split; [now apply openai_unconfigured|right; eauto].
  - destruct (JS.truthy (ANTHROPIC_API_KEY env)) as [key|] eqn:K.
    + destruct (accepted_dec key) as [A|A].
      * right; left. eexists.
        now apply (serve_anthropic_call w request env key).
      * right; right. eexists.
        now apply (serve_anthropic_refused w request env key).
    + left. rewrite (serve_anthropic w request env R). eexists.
      split; [now apply anthropic_unconfigured|right; eauto].
  - left. eexists. split; [now apply serve_not_found|right; eauto].
Qed.

(** The run of a request whose first upstream call is [call]. *)
Lemma serve_forwarded call :
  hd_error (upstream_calls w request env) = Some call ->
  serve w request env
  = (Returned (answer (runtime w) (upstream w [] call)), [call]).
Proof.
  unfold upstream_calls.
  destruct serve_cases as [(r & E & _) | [(c & E) | (f & E)]]; rewrite E;
    simpl; intros H; try discriminate. now inversion H.
Qed.

End Responses.

Lemma own_response_cors rt j st : carries_cors (headers (own_response rt j st)).
Proof. repeat split. Qed.

Lemma preflight_cors rt : carries_cors (headers (preflight_response rt)).
Proof. repeat split. Qed.

Lemma relayed_cors up : carries_cors (headers (relayed up)).
Proof.
  unfold relayed, carries_cors. cbn [headers]. repeat split.
  - rewrite !get_set_other by reflexivity. now apply get_set.
  - rewrite get_set_other by reflexivity. now apply get_set.
  - now apply get_set.
Qed.

Lemma answer_cors rt s : carries_cors (headers (answer rt s)).
Proof.
  destruct s as [up|e]; cbn [answer]; [|apply own_response_cors].
  destruct (relay rt up) as [r|f] eqn:E; [|apply own_response_cors].
  apply relay_inv in E. destruct E as [_ ->]. apply relayed_cors.
Qed.

(** The message of a failed upstream call can be read back from the body
    of the 502 response. *)
Lemma error_response_message_readable rt (e : Error) :
  let prefix :=
    "{" ++ JSON.quote "error" ++ ":" ++ JSON.quote "Proxy Error" ++ ","
        ++ JSON.quote "message" ++ ":" in
  body (error_response rt e) = Some (prefix ++ JSON.quote (message e) ++ "}") /\
  JSON.read_string (JSON.quote (message e) ++ "}") = Some (message e, "}").
Proof. split; [reflexivity|apply read_string_quote]. Qed.

(** * The contract *)

(** ** Forwarding *)




(** C2 (as amended).  For every request whose method is not OPTIONS and
    whose path starts with [/anthropic/], when the Anthropic key is
    configured (set and not empty) and is a header value as it stands, the
    proxy makes exactly one upstream call: to [https://api.anthropic.com]
    followed by the inbound path without its leading [/anthropic], with the
    inbound headers except that [x-api-key] is the key,
    [anthropic-version] is [2023-06-01] and Host is removed. *)
Theorem anthropic_forwards_once w request env key :
  method request <> "OPTIONS" ->
  JS.startsWith (pathname request) "/anthropic/" = true ->
  ANTHROPIC_API_KEY env = Some key ->
  key <> EmptyString ->
  header_value key ->
  exists call,
    upstream_calls w request env = [call] /\ anthropic_call request key call.
Proof.
  intros Hm Hp Hk Hne Hv.
  assert (K : JS.truthy (ANTHROPIC_API_KEY env) = Some key)
    by now apply truthy_inv.
  unfold upstream_calls.
  rewrite (serve_anthropic_call w request env key (conj Hm Hp) K
             (header_value_accepted _ Hv)).
  rewrite (header_value_normalize _ Hv). cbn [snd].
  eexists. split; [reflexivity|].
  apply startsWith_inv in Hp. destruct Hp as [r P].
  unfold anthropic_call. cbn [f_url f_headers]. repeat split.
  - exists (String "/" r). split; [exact P|].
    rewrite P. change ("/anthropic/" ++ r) with ("/anthropic" ++ String "/" r).
    now rewrite replace_leading.
  - rewrite get_delete_other, get_set_other by reflexivity.
    now apply get_set.
  - rewrite get_delete_other by reflexivity. now apply get_set.
  - apply has_delete.
  - rewrite except_delete, !except_set by reflexivity. reflexivity.
Qed.

Lemma anthropic_forwards_once_witness :
  exists call,
    upstream_calls Sample.online
      (Sample.req "POST" "/anthropic/v1/messages") Sample.keys = [call] /\
    anthropic_call (Sample.req "POST" "/anthropic/v1/messages") "ak-test" call.
Proof.
  apply (anthropic_forwards_once Sample.online
           (Sample.req "POST" "/anthropic/v1/messages") Sample.keys "ak-test");
    [discriminate | reflexivity | reflexivity | discriminate
    | repeat split ].
Defined.

(** C2 as stated, for every method, fails: a preflight to an
    [/anthropic/] path is answered without any upstream call. *)
Lemma anthropic_preflight_is_not_forwarded :
  ~ (forall w request env key,
        JS.startsWith (pathname request) "/anthropic/" = true ->
        ANTHROPIC_API_KEY env = Some key ->
        key <> EmptyString ->
        exists call,
          upstream_calls w request env = [call] /\
          anthropic_call request key call).
Proof.
  intros H.
  destruct (H Sample.online (Sample.req "OPTIONS" "/anthropic/v1/messages")
              Sample.keys "ak-test")
    as (call & E & _); [reflexivity | reflexivity | discriminate |].
  vm_compute in E. discriminate E.
Qed.

(** ** CORS *)




(** C4 (as amended).  When the upstream call of a forwarded request is
    fulfilled with a response the [Response] constructor accepts (status
    in 200..599, a reason phrase as status text, no body on a null body
    status), the response has the upstream's status, status text and body;
    each CORS header occurs once with its fixed value, and the headers
    under every other name are the upstream's, in the same order. *)
Theorem relay_is_a_frame w request env call up :
  hd_error (upstream_calls w request env) = Some call ->
  upstream w [] call = Fulfilled up ->
  constructible up ->
  exists resp,
    response_of w request env = Returned resp /\
    status resp = status up /\
    statusText resp = statusText up /\
    body resp = body up /\
    Forall (fun kv => Headers.values (headers resp) (fst kv) = [snd kv])
      corsHeaders /\
    Headers.except cors_names (headers resp)
    = Headers.except cors_names (headers up).
Proof.
  intros Hc Hu C. unfold response_of.
  rewrite (serve_forwarded w request env call Hc), Hu.
  cbn [fst answer]. rewrite (relay_ok (runtime w) up C).
  eexists. split; [reflexivity|]. unfold relayed.
  cbn [status statusText headers body]. repeat split.
  - unfold Headers.values. repeat constructor; cbn [fst snd].
    + now rewrite !filter_set_missed, filter_set_named
        by (apply misses_named; reflexivity).
    + now rewrite filter_set_missed, filter_set_named
        by (apply misses_named; reflexivity).
    + now rewrite filter_set_named.
  - now rewrite !except_set by reflexivity.
Qed.

Lemma relay_is_a_frame_witness :
  let request := Sample.req "POST" "/v1/chat/completions" in
  exists resp,
    response_of Sample.online request Sample.keys = Returned resp /\
    status resp = 201%Z /\
    statusText resp = "Created" /\
    body resp = Some "{}" /\
    Forall (fun kv => Headers.values (headers resp) (fst kv) = [snd kv])
      corsHeaders /\
    Headers.except cors_names (headers resp)
    = Headers.except cors_names (headers Sample.upstream_ok).
Proof.
  intros request.
  apply (relay_is_a_frame Sample.online request Sample.keys
           {| f_url := "https://api.openai.com/v1/chat/completions";
              f_method := "POST";
              f_headers := [ ("content-type", "application/json");
                             ("authorization", "Bearer sk-test") ];
              f_body := Some "{}" |} Sample.upstream_ok);
    [reflexivity | reflexivity | repeat split; discriminate].
Defined.

(** C4 as stated, for every fulfilled upstream call, fails: the answer 101
    to a WebSocket upgrade is refused by the [Response] constructor inside
    the [try] block, and the worker answers 502. *)
Lemma upgrade_is_not_relayed :
  ~ (forall w request env call up,
        hd_error (upstream_calls w request env) = Some call ->
        upstream w [] call = Fulfilled up ->
        exists resp,
          response_of w request env = Returned resp /\
          status resp = status up).
Proof.
  intros H.
  destruct (H Sample.upgrading (Sample.req "GET" "/v1/realtime") Sample.keys
              {| f_url := "https://api.openai.com/v1/realtime";
                 f_method := "GET";
                 f_headers := [ ("content-type", "application/json");
                                ("authorization", "Bearer sk-test") ];
                 f_body := None |} Sample.upstream_upgrade)
    as (resp & E & S); [reflexivity | reflexivity |].
  vm_compute in E. injection E as <-. discriminate S.
Qed.

(** ** Errors *)

(** C5.  A request routed to the OpenAI or to the Anthropic handler while
    that handler's key is absent is answered 500 with a JSON body whose
    [error] is [Configuration Error], and no upstream call is made. *)
Theorem missing_key_is_500 w request env :
  (routed_openai request /\ OPENAI_API_KEY env = None) \/
  (routed_anthropic request /\ ANTHROPIC_API_KEY env = None) ->
  exists resp,
    response_of w request env = Returned resp /\
    status resp = 500%Z /\
    (exists j, json_body resp j /\
               JSON.field j "error" = Some (JSON.Str "Configuration Error")) /\
    upstream_calls w request env = [].
Proof.
  intros H. unfold response_of, upstream_calls.
  destruct H as [[R K] | [R K]].
  - rewrite (serve_openai w request env R), openai_unconfigured
      by now rewrite K.
    eexists. repeat split. eexists. split; reflexivity.
  - rewrite (serve_anthropic w request env R), anthropic_unconfigured
      by now rewrite K.
    eexists. repeat split. eexists. split; reflexivity.
Qed.

Lemma missing_key_is_500_witness :
  (exists resp,
      response_of Sample.online (Sample.req "POST" "/v1/chat/completions")
        Sample.no_keys = Returned resp /\
      status resp = 500%Z /\
      (exists j, json_body resp j /\
                 JSON.field j "error" = Some (JSON.Str "Configuration Error")) /\
      upstream_calls Sample.online (Sample.req "POST" "/v1/chat/completions")
        Sample.no_keys = []) /\
  (exists resp,
      response_of Sample.online (Sample.req "POST" "/anthropic/v1/messages")
        Sample.no_keys = Returned resp /\
      status resp = 500%Z /\
      (exists j, json_body resp j /\
                 JSON.field j "error" = Some (JSON.Str "Configuration Error")) /\
      upstream_calls Sample.online (Sample.req "POST" "/anthropic/v1/messages")
        Sample.no_keys = []).
Proof.
  split.
  - apply (missing_key_is_500 Sample.online
             (Sample.req "POST" "/v1/chat/completions") Sample.no_keys).
    left. repeat split. discriminate.
  - apply (missing_key_is_500 Sample.online
             (Sample.req "POST" "/anthropic/v1/messages") Sample.no_keys).
    right. repeat split. discriminate.
Defined.

(** C6.  When the upstream call of a forwarded request is rejected with an
    error, the response is 502 with a JSON body whose [error] is
    [Proxy Error] and whose [message] is the error's message, and that call
    is the only one made. *)
Theorem upstream_failure_is_502 w request env call e :
  hd_error (upstream_calls w request env) = Some call ->
  upstream w [] call = Rejected e ->
  exists resp,
    response_of w request env = Returned resp /\
    status resp = 502%Z /\
    (exists j, json_body resp j /\
               JSON.field j "error" = Some (JSON.Str "Proxy Error") /\
               JSON.field j "message" = Some (JSON.Str (message e))) /\
    upstream_calls w request env = [call].
Proof.
  intros Hc Hu. unfold response_of, upstream_calls.
  rewrite (serve_forwarded w request env call Hc), Hu.
  eexists. repeat split. eexists. repeat split; reflexivity.
Qed.

Lemma upstream_failure_is_502_witness :
  let request := Sample.req "POST" "/anthropic/v1/messages" in
  let call :=
    {| f_url := "https://api.anthropic.com/v1/messages";
       f_method := "POST";
       f_headers := [ ("content-type", "application/json");
                      ("authorization", "Bearer from-client");
                      ("x-api-key", "ak-test");
                      ("anthropic-version", "2023-06-01") ];
       f_body := Some "{}" |} in
  exists resp,
    response_of Sample.offline request Sample.keys = Returned resp /\
    status resp = 502%Z /\
    (exists j, json_body resp j /\
               JSON.field j "error" = Some (JSON.Str "Proxy Error") /\
               JSON.field j "message"
               = Some (JSON.Str "connect ECONNREFUSED")) /\
    upstream_calls Sample.offline request Sample.keys = [call].
Proof.
  intros request call.
  apply (upstream_failure_is_502 Sample.offline request Sample.keys call
           {| message := "connect ECONNREFUSED" |}); reflexivity.
Defined.

(** ** Routes without an upstream *)

(** C7.  A request with method OPTIONS, whatever its path and the
    configured keys, is answered 204 with no body and exactly the three
    CORS headers, and no upstream call is made. *)
Theorem preflight_is_204 w request env :
  method request = "OPTIONS" ->
  exists resp,
    response_of w request env = Returned resp /\
    status resp = 204%Z /\
    body resp = None /\
    headers resp
    = [ ("access-control-allow-origin", "*");
        ("access-control-allow-methods", "GET, POST, PUT, DELETE, OPTIONS");
        ("access-control-allow-headers",
         "Content-Type, Authorization, X-Requested-With") ] /\
    upstream_calls w request env = [].
Proof.
  intros H. unfold response_of, upstream_calls.
  rewrite (serve_options w request env H). eexists. repeat split.
Qed.

Lemma preflight_is_204_witness :
  exists resp,
    response_of Sample.online (Sample.req "OPTIONS" "/v1/chat/completions")
      Sample.broken_keys = Returned resp /\
    status resp = 204%Z /\
    body resp = None /\
    headers resp
    = [ ("access-control-allow-origin", "*");
        ("access-control-allow-methods", "GET, POST, PUT, DELETE, OPTIONS");
        ("access-control-allow-headers",
         "Content-Type, Authorization, X-Requested-With") ] /\
    upstream_calls Sample.online (Sample.req "OPTIONS" "/v1/chat/completions")
      Sample.broken_keys = [].
Proof.
  apply (preflight_is_204 Sample.online
           (Sample.req "OPTIONS" "/v1/chat/completions") Sample.broken_keys).
  reflexivity.
Defined.

(** C8.  A GET to [/] or [/health] is answered 200 with a JSON body that
    has the keys [status], [service], [timestamp] and [endpoints], where
    [endpoints.openai] is [/v1/*] and [endpoints.anthropic] is
    [/anthropic/*], and no upstream call is made. *)
Theorem health_is_200 w request env :
  method request = "GET" ->
  pathname request = "/" \/ pathname request = "/health" ->
  exists resp,
    response_of w request env = Returned resp /\
    status resp = 200%Z /\
    (exists j endpoints,
        json_body resp j /\
        JSON.field j "status" <> None /\
        JSON.field j "service" <> None /\
        JSON.field j "timestamp" <> None /\
        JSON.field j "endpoints" = Some endpoints /\
        JSON.field endpoints "openai" = Some (JSON.Str "/v1/*") /\
        JSON.field endpoints "anthropic" = Some (JSON.Str "/anthropic/*")) /\
    upstream_calls w request env = [].
Proof.
  intros Hm Hp. unfold response_of, upstream_calls.
  rewrite (serve_health w request env) by (rewrite ?Hm; easy).
  eexists. repeat split. do 2 eexists.
  repeat split; try reflexivity; discriminate.
Qed.

Lemma health_is_200_witness :
  exists resp,
    response_of Sample.online (Sample.req "GET" "/health") Sample.keys
    = Returned resp /\
    status resp = 200%Z /\
    (exists j endpoints,
        json_body resp j /\
        JSON.field j "status" <> None /\
        JSON.field j "service" <> None /\
        JSON.field j "timestamp" <> None /\
        JSON.field j "endpoints" = Some endpoints /\
        JSON.field endpoints "openai" = Some (JSON.Str "/v1/*") /\
        JSON.field endpoints "anthropic" = Some (JSON.Str "/anthropic/*")) /\
    upstream_calls Sample.online (Sample.req "GET" "/health") Sample.keys = [].
Proof.
  apply (health_is_200 Sample.online (Sample.req "GET" "/health") Sample.keys).
  - reflexivity.
  - right. reflexivity.
Defined.

(** C9 (as amended).  A request whose method is not OPTIONS and whose path
    starts with neither [/v1/] nor [/anthropic/] and is neither [/] nor
    [/health] is answered 404 with the JSON not-found body, and the CORS
    headers are present. *)
Theorem unmatched_path_is_404 w request env :
  method request <> "OPTIONS" ->
  JS.startsWith (pathname request) "/v1/" = false ->
  JS.startsWith (pathname request) "/anthropic/" = false ->
  pathname request <> "/" ->
  pathname request <> "/health" ->
  exists resp,
    response_of w request env = Returned resp /\
    status resp = 404%Z /\
    (exists j, json_body resp j /\
               JSON.field j "error" = Some (JSON.Str "Not Found") /\
               JSON.field j "message"
               = Some (JSON.Str
                         "Use /v1/* for OpenAI or /anthropic/* for Anthropic")) /\
    carries_cors (headers resp).
Proof.
  intros Hm H3 H4 H1 H2. unfold response_of.
  rewrite (serve_not_found w request env Hm H1 H2 H3 H4). cbn [fst].
  eexists. split; [reflexivity|]. split; [reflexivity|].
  split; [|apply own_response_cors].
  eexists. repeat split; reflexivity.
Qed.

Lemma unmatched_path_is_404_witness :
  exists resp,
    response_of Sample.online (Sample.req "DELETE" "/v2/models") Sample.keys
    = Returned resp /\
    status resp = 404%Z /\
    (exists j, json_body resp j /\
               JSON.field j "error" = Some (JSON.Str "Not Found") /\
               JSON.field j "message"
               = Some (JSON.Str
                         "Use /v1/* for OpenAI or /anthropic/* for Anthropic")) /\
    carries_cors (headers resp).
Proof.
  apply (unmatched_path_is_404 Sample.online
           (Sample.req "DELETE" "/v2/models") Sample.keys);
    [discriminate | reflexivity | reflexivity | discriminate | discriminate].
Defined.

(** C9 as stated, for any method, fails: OPTIONS to an unmatched path is
    answered 204, not 404. *)
Lemma unmatched_preflight_is_not_404 :
  ~ (forall w request env,
        JS.startsWith (pathname request) "/v1/" = false ->
        JS.startsWith (pathname request) "/anthropic/" = false ->
        pathname request <> "/" ->
        pathname request <> "/health" ->
        exists resp,
          response_of w request env = Returned resp /\
          status resp = 404%Z).
Proof.
  intros H.
  destruct (H Sample.online (Sample.req "OPTIONS" "/v2/models") Sample.keys)
    as (resp & E & S);
    [reflexivity | reflexivity | discriminate | discriminate |].
  vm_compute in E. injection E as <-. discriminate S.
Qed.

(** C10.  A request whose method is not OPTIONS and whose path is exactly
    [/v1] or exactly [/anthropic] is answered 404 without any upstream
    call: both route tests ask for the trailing slash. *)
Theorem bare_prefix_is_404 w request env :
  method request <> "OPTIONS" ->
  pathname request = "/v1" \/ pathname request = "/anthropic" ->
  exists resp,
    response_of w request env = Returned resp /\
    status resp = 404%Z /\
    upstream_calls w request env = [].
Proof.
  intros Hm Hp. unfold response_of, upstream_calls.
  rewrite (serve_not_found w request env Hm);
    try (destruct Hp as [-> | ->]; (reflexivity || discriminate)).
  eexists. repeat split.
Qed.

Lemma bare_prefix_is_404_witness :
  (exists resp,
      response_of Sample.online (Sample.req "POST" "/v1") Sample.keys
      = Returned resp /\
      status resp = 404%Z /\
      upstream_calls Sample.online (Sample.req "POST" "/v1") Sample.keys = []) /\
  (exists resp,
      response_of Sample.online (Sample.req "POST" "/anthropic") Sample.keys
      = Returned resp /\
      status resp = 404%Z /\
      upstream_calls Sample.online (Sample.req "POST" "/anthropic") Sample.keys
      = []).
Proof.
  split.
  - apply (bare_prefix_is_404 Sample.online (Sample.req "POST" "/v1")
             Sample.keys); [discriminate | left; reflexivity].
  - apply (bare_prefix_is_404 Sample.online (Sample.req "POST" "/anthropic")
             Sample.keys); [discriminate | right; reflexivity].
Defined.

(** * Further properties of the worker *)

Lemma values_delete_named h n n' :
  Headers.name_eqb n n' = true ->
  Headers.values (Headers.list_delete h n) n' = [].
Proof.
  intros H. rewrite <- (values_same _ _ _ H). unfold Headers.values.
  now rewrite filter_delete_named.
Qed.

Lemma values_set_named h n n' v :
  Headers.name_eqb n n' = true ->
  Headers.values (Headers.list_set h n v) n' = [v].
Proof.
  intros H. rewrite <- (values_same _ _ _ H). unfold Headers.values.
  now rewrite filter_set_named.
Qed.

Lemma values_set_other h n m v :
  Headers.name_eqb n m = false ->
  Headers.values (Headers.list_set h n v) m = Headers.values h m.
Proof.
  intros H. unfold Headers.values.
  now rewrite filter_set_missed by now apply misses_named.
Qed.

Lemma values_delete_other h n m :
  Headers.name_eqb n m = false ->
  Headers.values (Headers.list_delete h n) m = Headers.values h m.
Proof.
  intros H. unfold Headers.values.
  now rewrite filter_delete_missed by now apply misses_named.
Qed.

(** Two spellings of one name stand in the same relation to a third. *)
Lemma name_eqb_other n n' m :
  Headers.name_eqb n n' = true ->
  Headers.name_eqb m n = Headers.name_eqb m n'.
Proof.
  intros H. rewrite !(name_eqb_sym m). now apply name_eqb_same.
Qed.

(** The ways a request on a provider's route is handled. *)
Lemma openai_cases w request env :
  routed_openai request ->
  (JS.truthy (OPENAI_API_KEY env) = None /\
   exists r, serve w request env = (Returned r, [])) \/
  (exists key,
      JS.truthy (OPENAI_API_KEY env) = Some key /\
      ~ accepted ("Bearer " ++ key) /\
      exists f, serve w request env = (Threw (thrown (runtime w) f), [])) \/
  (exists key,
      JS.truthy (OPENAI_API_KEY env) = Some key /\
      accepted ("Bearer " ++ key) /\
      serve w request env
      = let call :=
          {| f_url := "https://api.openai.com" ++ pathname request;
             f_method := method request;
             f_headers :=
               Headers.list_delete
                 (Headers.list_set (req_headers request) "Authorization"
                    (Headers.normalize ("Bearer " ++ key))) "Host";
             f_body := forwardedBody request |} in
        (Returned (answer (runtime w) (upstream w [] call)), [call])).
Proof.
  intros R. destruct (JS.truthy (OPENAI_API_KEY env)) as [key|] eqn:K.
  - right. destruct (accepted_dec ("Bearer " ++ key)) as [A|A].
    + right. exists key. repeat split; [exact A|].
      now apply serve_openai_call.
    + left. exists key. repeat split; [exact A|]. eexists.
      now apply (serve_openai_refused w request env key).
  - left. split; [reflexivity|]. eexists.
    rewrite (serve_openai w request env R). now apply openai_unconfigured.
Qed.

Lemma anthropic_cases w request env :
  routed_anthropic request ->
  (JS.truthy (ANTHROPIC_API_KEY env) = None /\
   exists r, serve w request env = (Returned r, [])) \/
  (exists key,
      JS.truthy (ANTHROPIC_API_KEY env) = Some key /\
      ~ accepted key /\
      exists f, serve w request env = (Threw (thrown (runtime w) f), [])) \/
  (exists key,
      JS.truthy (ANTHROPIC_API_KEY env) = Some key /\
      accepted key /\
      serve w request env
      = let call :=
          {| f_url :=
               "https://api.anthropic.com"
                 ++ JS.replace (pathname request) "/anthropic" EmptyString;
             f_method := method request;
             f_headers :=
               Headers.list_delete
                 (Headers.list_set
                    (Headers.list_set (req_headers request) "x-api-key"
                       (Headers.normalize key))
                    "anthropic-version" "2023-06-01") "Host";
             f_body := forwardedBody request |} in
        (Returned (answer (runtime w) (upstream w [] call)), [call])).
Proof.
  intros R. destruct (JS.truthy (ANTHROPIC_API_KEY env)) as [key|] eqn:K.
  - right. destruct (accepted_dec key) as [A|A].
    + right. exists key. repeat split; [exact A|].
      now apply serve_anthropic_call.
    + left. exists key. repeat split; [exact A|]. eexists.
      now apply (serve_anthropic_refused w request env key).
  - left. split; [reflexivity|]. eexists.
    rewrite (serve_anthropic w request env R).
    now apply anthropic_unconfigured.
Qed.

(** ** What the proxy never does *)

(** X1.  No request, whatever the keys and the upstream's behaviour, makes
    the worker call upstream more than once. *)
Theorem at_most_one_upstream_call w request env :
  length (upstream_calls w request env) <= 1.
Proof.
  unfold upstream_calls.
  destruct (serve_cases w request env)
    as [(r & E & _) | [(call & E) | (f & E)]];
    rewrite E; simpl; lia.
Qed.

(** X2.  The worker is no open proxy: every upstream call goes to a URL
    under [https://api.openai.com/v1/] or under
    [https://api.anthropic.com/]. *)
Theorem upstream_is_a_provider w request env :
  Forall
    (fun call =>
       JS.startsWith (f_url call) "https://api.openai.com/v1/" = true \/
       JS.startsWith (f_url call) "https://api.anthropic.com/" = true)
    (upstream_calls w request env).
Proof.
  unfold upstream_calls.
  destruct (route_cases request)
    as [O | [[Hm Hp] | [R | [R | (Hm & H1 & H2 & H3 & H4)]]]].
  - rewrite (serve_options w request env O). constructor.
  - rewrite (serve_health w request env Hm Hp). constructor.
  - destruct (openai_cases w request env R)
      as [(_ & r & E) | [(key & _ & _ & f & E) | (key & _ & _ & E)]];
      rewrite E; cbn [snd]; try constructor; [|constructor].
    left. cbn [f_url].
    destruct R as [_ P]. apply startsWith_inv in P. destruct P as [r ->].
    apply (prefix_app "https://api.openai.com/v1/" r).
  - destruct (anthropic_cases w request env R)
      as [(_ & r & E) | [(key & _ & _ & f & E) | (key & _ & _ & E)]];
      rewrite E; cbn [snd]; try constructor; [|constructor].
    right. cbn [f_url].
    destruct R as [_ P]. apply startsWith_inv in P. destruct P as [r ->].
    change ("/anthropic/" ++ r) with ("/anthropic" ++ String "/" r).
    rewrite replace_leading.
    apply (prefix_app "https://api.anthropic.com/" r).
  - rewrite (serve_not_found w request env Hm H1 H2 H3 H4). constructor.
Qed.

(** X3.  The handling of a request depends on no key but the one of its
    own route: two environments that agree on the OpenAI key for a request
    on the OpenAI route, and on the Anthropic key for one on the Anthropic
    route, give the same outcome and the same upstream calls. *)
Theorem keys_are_isolated w request env env' :
  (routed_openai request -> OPENAI_API_KEY env = OPENAI_API_KEY env') ->
  (routed_anthropic request ->
   ANTHROPIC_API_KEY env = ANTHROPIC_API_KEY env') ->
  serve w request env = serve w request env'.
Proof.
  intros HO HA.
  destruct (route_cases request)
    as [O | [[Hm Hp] | [R | [R | (Hm & H1 & H2 & H3 & H4)]]]].
  - now rewrite !serve_options.
  - now rewrite !serve_health.
  - rewrite !(serve_openai w request _ R). unfold handleOpenAI.
    now rewrite (HO R).
  - rewrite !(serve_anthropic w request _ R). unfold handleAnthropic.
    now rewrite (HA R).
  - now rewrite !serve_not_found.
Qed.

Lemma keys_are_isolated_witness :
  serve Sample.online (Sample.req "POST" "/anthropic/v1/messages") Sample.keys
  = serve Sample.online (Sample.req "POST" "/anthropic/v1/messages")
      {| OPENAI_API_KEY := None; ANTHROPIC_API_KEY := Some "ak-test" |}.
Proof.
  apply (keys_are_isolated Sample.online
           (Sample.req "POST" "/anthropic/v1/messages") Sample.keys
           {| OPENAI_API_KEY := None; ANTHROPIC_API_KEY := Some "ak-test" |}).
  - intros [_ P]. vm_compute in P. discriminate P.
  - intros _. reflexivity.
Defined.

(** ** Edge cases of the configuration and of the routes *)

(** X4.  A key set to the empty string counts as not configured: the
    request is answered 500 with the configuration-error body and no
    upstream call is made. *)
Theorem empty_key_is_500 w request env :
  (routed_openai request /\ OPENAI_API_KEY env = Some EmptyString) \/
  (routed_anthropic request /\ ANTHROPIC_API_KEY env = Some EmptyString) ->
  exists resp,
    response_of w request env = Returned resp /\
    status resp = 500%Z /\
    (exists j, json_body resp j /\
               JSON.field j "error" = Some (JSON.Str "Configuration Error")) /\
    upstream_calls w request env = [].
Proof.
  intros H. unfold response_of, upstream_calls.
  destruct H as [[R K] | [R K]].
  - rewrite (serve_openai w request env R), openai_unconfigured
      by now rewrite K.
    eexists. repeat split. eexists. split; reflexivity.
  - rewrite (serve_anthropic w request env R), anthropic_unconfigured
      by now rewrite K.
    eexists. repeat split. eexists. split; reflexivity.
Qed.

Lemma empty_key_is_500_witness :
  let env :=
    {| OPENAI_API_KEY := Some EmptyString; ANTHROPIC_API_KEY := None |} in
  let request := Sample.req "POST" "/v1/chat/completions" in
  exists resp,
    response_of Sample.online request env = Returned resp /\
    status resp = 500%Z /\
    (exists j, json_body resp j /\
               JSON.field j "error" = Some (JSON.Str "Configuration Error")) /\
    upstream_calls Sample.online request env = [].
Proof.
  intros env request.
  apply (empty_key_is_500 Sample.online request env).
  left. repeat split. discriminate.
Defined.

(** X5.  The health check answers every method but OPTIONS, not only GET:
    200, a JSON body with status [ok], service [guidedog] and the clock's
    reading as timestamp, and no upstream call. *)
Theorem health_for_any_method w request env :
  method request <> "OPTIONS" ->
  pathname request = "/" \/ pathname request = "/health" ->
  exists resp,
    response_of w request env = Returned resp /\
    status resp = 200%Z /\
    (exists j, json_body resp j /\
               JSON.field j "status" = Some (JSON.Str "ok") /\
               JSON.field j "service" = Some (JSON.Str "guidedog") /\
               JSON.field j "timestamp" = Some (JSON.Str (clock w))) /\
    upstream_calls w request env = [].
Proof.
  intros Hm Hp. unfold response_of, upstream_calls.
  rewrite (serve_health w request env Hm Hp).
  eexists. repeat split. eexists. repeat split; reflexivity.
Qed.

Lemma health_for_any_method_witness :
  exists resp,
    response_of Sample.offline (Sample.req "DELETE" "/") Sample.no_keys
    = Returned resp /\
    status resp = 200%Z /\
    (exists j, json_body resp j /\
               JSON.field j "status" = Some (JSON.Str "ok") /\
               JSON.field j "service" = Some (JSON.Str "guidedog") /\
               JSON.field j "timestamp"
               = Some (JSON.Str "2026-01-01T00:00:00.000Z")) /\
    upstream_calls Sample.offline (Sample.req "DELETE" "/") Sample.no_keys = [].
Proof.
  apply (health_for_any_method Sample.offline (Sample.req "DELETE" "/")
           Sample.no_keys); [discriminate | left; reflexivity].
Defined.

(** X6.  The query string of the inbound URL plays no part: a request
    handled with another query string gets the same outcome and causes the
    same upstream calls, whose URL is built from the path alone. *)
Theorem query_string_is_dropped w request env (q : string) :
  serve w
    {| method := method request; pathname := pathname request; search := q;
       req_headers := req_headers request; req_body := req_body request |}
    env
  = serve w request env.
Proof. destruct request. reflexivity. Qed.

(** X7.  The Anthropic route forwards the method and the body as the
    OpenAI route does: when the key is configured and accepted as a header
    value, the one call made has the inbound method, and the inbound body
    unless the method is GET. *)
Theorem anthropic_forwards_method_and_body w request env key :
  method request <> "OPTIONS" ->
  JS.startsWith (pathname request) "/anthropic/" = true ->
  ANTHROPIC_API_KEY env = Some key ->
  key <> EmptyString ->
  accepted key ->
  exists call,
    upstream_calls w request env = [call] /\
    f_method call = method request /\
    f_body call
    = (if String.eqb (method request) "GET" then None else req_body request).
Proof.
  intros Hm Hp Hk Hne A.
  assert (K : JS.truthy (ANTHROPIC_API_KEY env) = Some key)
    by now apply truthy_inv.
  unfold upstream_calls.
  rewrite (serve_anthropic_call w request env key (conj Hm Hp) K A).
  cbn [snd]. eexists. split; [reflexivity|]. cbn [f_method f_body].
  split; [reflexivity|]. unfold forwardedBody, JS.strict_eq.
  now destruct (String.eqb (method request) "GET").
Qed.

Lemma anthropic_forwards_method_and_body_witness :
  let request := Sample.req "GET" "/anthropic/v1/models" in
  exists call,
    upstream_calls Sample.online request Sample.keys = [call] /\
    f_method call = "GET" /\
    f_body call = None.
Proof.
  intros request.
  apply (anthropic_forwards_method_and_body Sample.online request Sample.keys
           "ak-test");
    [discriminate | reflexivity | reflexivity | discriminate | reflexivity].
Defined.

(** ** Headers of the upstream call *)

(** X8.  On the OpenAI route the client cannot override the credentials
    or keep its Host: when [Bearer <key>] is accepted as a header value,
    then however many Authorization and Host headers the client sent, in
    whatever letter case, the upstream call has exactly one Authorization
    value, [Bearer <key>] trimmed of surrounding whitespace, and no Host
    value. *)
Theorem openai_credentials_are_the_proxys w request env key :
  method request <> "OPTIONS" ->
  JS.startsWith (pathname request) "/v1/" = true ->
  OPENAI_API_KEY env = Some key ->
  key <> EmptyString ->
  accepted ("Bearer " ++ key) ->
  exists call,
    upstream_calls w request env = [call] /\
    forall n,
      (Headers.name_eqb n "Authorization" = true ->
       Headers.values (f_headers call) n
       = [Headers.normalize ("Bearer " ++ key)]) /\
      (Headers.name_eqb n "Host" = true ->
       Headers.values (f_headers call) n = []).
Proof.
  intros Hm Hp Hk Hne A.
  assert (K : JS.truthy (OPENAI_API_KEY env) = Some key)
    by now apply truthy_inv.
  unfold upstream_calls.
  rewrite (serve_openai_call w request env key (conj Hm Hp) K A).
  cbn [snd]. eexists. split; [reflexivity|]. cbn [f_headers].
  intros n. split; intros H.
  - rewrite values_delete_other
      by (rewrite (name_eqb_other _ _ "Host" H); reflexivity).
    apply values_set_named. now rewrite name_eqb_sym.
  - apply values_delete_named. now rewrite name_eqb_sym.
Qed.

Lemma openai_credentials_are_the_proxys_witness :
  let request :=
    {| method := "POST"; pathname := "/v1/chat/completions";
       search := EmptyString;
       req_headers := [ ("Authorization", "Bearer one");
                        ("HOST", "evil.example");
                        ("authorization", "Bearer two") ];
       req_body := Some "{}" |} in
  let env :=
    {| OPENAI_API_KEY := Some "sk-test "; ANTHROPIC_API_KEY := None |} in
  exists call,
    upstream_calls Sample.online request env = [call] /\
    forall n,
      (Headers.name_eqb n "Authorization" = true ->
       Headers.values (f_headers call) n = ["Bearer sk-test"]) /\
      (Headers.name_eqb n "Host" = true ->
       Headers.values (f_headers call) n = []).
Proof.
  intros request env.
  apply (openai_credentials_are_the_proxys Sample.online request env
           "sk-test ");
    [discriminate | reflexivity | reflexivity | discriminate | reflexivity].
Defined.

(** X9.  On the Anthropic route, likewise: when the key is accepted as a
    header value, the upstream call has exactly one [x-api-key] value, the
    key trimmed of surrounding whitespace, exactly one [anthropic-version]
    value, [2023-06-01], and no Host value, whatever the client sent under
    those names. *)
Theorem anthropic_credentials_are_the_proxys w request env key :
  method request <> "OPTIONS" ->
  JS.startsWith (pathname request) "/anthropic/" = true ->
  ANTHROPIC_API_KEY env = Some key ->
  key <> EmptyString ->
  accepted key ->
  exists call,
    upstream_calls w request env = [call] /\
    forall n,
      (Headers.name_eqb n "x-api-key" = true ->
       Headers.values (f_headers call) n = [Headers.normalize key]) /\
      (Headers.name_eqb n "anthropic-version" = true ->
       Headers.values (f_headers call) n = ["2023-06-01"]) /\
      (Headers.name_eqb n "Host" = true ->
       Headers.values (f_headers call) n = []).
Proof.
  intros Hm Hp Hk Hne A.
  assert (K : JS.truthy (ANTHROPIC_API_KEY env) = Some key)
    by now apply truthy_inv.
  unfold upstream_calls.
  rewrite (serve_anthropic_call w request env key (conj Hm Hp) K A).
  cbn [snd]. eexists. split; [reflexivity|]. cbn [f_headers].
  intros n. repeat split; intros H.
  - rewrite values_delete_other
      by (rewrite (name_eqb_other _ _ "Host" H); reflexivity).
    rewrite values_set_other
      by (rewrite (name_eqb_other _ _ "anthropic-version" H); reflexivity).
    apply values_set_named. now rewrite name_eqb_sym.
  - rewrite values_delete_other
      by (rewrite (name_eqb_other _ _ "Host" H); reflexivity).
    apply values_set_named. now rewrite name_eqb_sym.
  - apply values_delete_named. now rewrite name_eqb_sym.
Qed.

Lemma anthropic_credentials_are_the_proxys_witness :
  let request :=
    {| method := "POST"; pathname := "/anthropic/v1/messages";
       search := EmptyString;
       req_headers := [ ("X-Api-Key", "mine");
                        ("anthropic-version", "2020-01-01");
                        ("x-api-key", "mine-too");
                        ("Host", "guidedog.kpremks.workers.dev") ];
       req_body := Some "{}" |} in
  let env :=
    {| OPENAI_API_KEY := None;
       ANTHROPIC_API_KEY := Some ("ak-test" ++ String "010" EmptyString) |} in
  exists call,
    upstream_calls Sample.online request env = [call] /\
    forall n,
      (Headers.name_eqb n "x-api-key" = true ->
       Headers.values (f_headers call) n = ["ak-test"]) /\
      (Headers.name_eqb n "anthropic-version" = true ->
       Headers.values (f_headers call) n = ["2023-06-01"]) /\
      (Headers.name_eqb n "Host" = true ->
       Headers.values (f_headers call) n = []).
Proof.
  intros request env.
  apply (anthropic_credentials_are_the_proxys Sample.online request env
           ("ak-test" ++ String "010" EmptyString));
    [discriminate | reflexivity | reflexivity | discriminate | reflexivity].
Defined.

(** X10.  Whichever route forwards a request, the headers under any name
    other than Authorization, x-api-key, anthropic-version and Host reach
    the upstream as the client sent them. *)
Theorem other_headers_pass_through w request env call n :
  hd_error (upstream_calls w request env) = Some call ->
  existsb (Headers.name_eqb n)
    ["Authorization"; "x-api-key"; "anthropic-version"; "Host"] = false ->
  Headers.values (f_headers call) n = Headers.values (req_headers request) n.
Proof.
  intros Hc Hn. cbn [existsb] in Hn.
  rewrite !orb_false_iff in Hn. destruct Hn as (N1 & N2 & N3 & N4 & _).
  rewrite name_eqb_sym in N1, N2, N3, N4.
  revert Hc. unfold upstream_calls.
  destruct (route_cases request)
    as [O | [[Hm Hp] | [R | [R | (Hm & H1 & H2 & H3 & H4)]]]].
  - rewrite (serve_options w request env O). discriminate.
  - rewrite (serve_health w request env Hm Hp). discriminate.
  - destruct (openai_cases w request env R)
      as [(_ & r & E) | [(key & _ & _ & f & E) | (key & _ & _ & E)]];
      rewrite E; cbn [snd hd_error]; try discriminate.
    intros H. inversion H. cbn [f_headers].
    now rewrite values_delete_other, values_set_other.
  - destruct (anthropic_cases w request env R)
      as [(_ & r & E) | [(key & _ & _ & f & E) | (key & _ & _ & E)]];
      rewrite E; cbn [snd hd_error]; try discriminate.
    intros H. inversion H. cbn [f_headers].
    now rewrite values_delete_other, !values_set_other.
  - rewrite (serve_not_found w request env Hm H1 H2 H3 H4). discriminate.
Qed.

Lemma other_headers_pass_through_witness :
  Headers.values
    [ ("content-type", "application/json");
      ("authorization", "Bearer sk-test") ] "Content-Type"
  = Headers.values (req_headers (Sample.req "POST" "/v1/chat/completions"))
      "Content-Type".
Proof.
  apply (other_headers_pass_through Sample.online
           (Sample.req "POST" "/v1/chat/completions") Sample.keys
           {| f_url := "https://api.openai.com/v1/chat/completions";
              f_method := "POST";
              f_headers := [ ("content-type", "application/json");
                             ("authorization", "Bearer sk-test") ];
              f_body := Some "{}" |} "Content-Type");
    reflexivity.
Defined.

(** X11.  The Anthropic route leaves the client's Authorization header in
    place: in the upstream call it makes, the values under any spelling of
    that name are those the client sent. *)
Theorem anthropic_keeps_client_authorization w request env call n :
  routed_anthropic request ->
  hd_error (upstream_calls w request env) = Some call ->
  Headers.name_eqb n "Authorization" = true ->
  Headers.values (f_headers call) n = Headers.values (req_headers request) n.
Proof.
  intros R Hc Hn. revert Hc. unfold upstream_calls.
  destruct (anthropic_cases w request env R)
    as [(_ & r & E) | [(key & _ & _ & f & E) | (key & _ & _ & E)]];
    rewrite E; cbn [snd hd_error]; try discriminate.
  intros H. inversion H. cbn [f_headers].
  rewrite values_delete_other, !values_set_other;
    try reflexivity; now rewrite (name_eqb_other _ _ _ Hn).
Qed.

Lemma anthropic_keeps_client_authorization_witness :
  Headers.values
    [ ("content-type", "application/json");
      ("authorization", "Bearer from-client");
      ("x-api-key", "ak-test");
      ("anthropic-version", "2023-06-01") ] "AUTHORIZATION"
  = Headers.values
      (req_headers (Sample.req "POST" "/anthropic/v1/messages"))
      "AUTHORIZATION".
Proof.
  apply (anthropic_keeps_client_authorization Sample.online
           (Sample.req "POST" "/anthropic/v1/messages") Sample.keys
           {| f_url := "https://api.anthropic.com/v1/messages";
              f_method := "POST";
              f_headers := [ ("content-type", "application/json");
                             ("authorization", "Bearer from-client");
                             ("x-api-key", "ak-test");
                             ("anthropic-version", "2023-06-01") ];
              f_body := Some "{}" |} "AUTHORIZATION");
    [split; [discriminate|reflexivity] | reflexivity | reflexivity].
Defined.

(** ** Responses *)

Lemma own_response_kind rt j st :
  In st [200; 404; 500; 502]%Z ->
  let resp := own_response rt j st in
  In (status resp) [200; 404; 500; 502]%Z /\
  Headers.values (headers resp) "Content-Type" = ["application/json"] /\
  exists j', json_body resp j'.
Proof. intros H. repeat split; [exact H|]. exists j. reflexivity. Qed.

Lemma delete_absent h n :
  filter (Headers.is_named n) h = [] -> Headers.list_delete h n = h.
Proof.
  unfold Headers.list_delete.
  induction h as [|e h IH]; simpl; [reflexivity|].
  destruct (Headers.is_named n e); simpl; [discriminate|].
  intros H. now rewrite IH.
Qed.

Lemma set_present h n v :
  filter (Headers.is_named n) h = [(JS.toLowerCase n, v)] ->
  Headers.list_set h n v = h.
Proof.
  induction h as [|e h IH]; simpl; [discriminate|].
  destruct (Headers.is_named n e); intros H.
  - injection H as -> H. now rewrite delete_absent.
  - now rewrite IH.
Qed.

(** X12.  Every response the worker returns is of one of three kinds: the
    upstream's response, one the [Response] constructor accepts, relayed
    after the one call made; the preflight answer, 204 without a body; or a
    response of the worker's own, with status 200, 404, 500 or 502, a JSON
    body and the single Content-Type [application/json]. *)
Theorem response_kinds w request env resp :
  response_of w request env = Returned resp ->
  (exists call up,
      upstream_calls w request env = [call] /\
      upstream w [] call = Fulfilled up /\
      constructible up /\ resp = relayed up) \/
  (method request = "OPTIONS" /\ status resp = 204%Z /\ body resp = None) \/
  (In (status resp) [200; 404; 500; 502]%Z /\
   Headers.values (headers resp) "Content-Type" = ["application/json"] /\
   exists j, json_body resp j).
Proof.
  unfold response_of, upstream_calls.
  assert (F : forall call,
             serve w request env
             = (Returned (answer (runtime w) (upstream w [] call)), [call]) ->
             fst (serve w request env) = Returned resp ->
             (exists call up,
                 snd (serve w request env) = [call] /\
                 upstream w [] call = Fulfilled up /\
                 constructible up /\ resp = relayed up) \/
             (method request = "OPTIONS" /\
              status resp = 204%Z /\ body resp = None) \/
             (In (status resp) [200; 404; 500; 502]%Z /\
              Headers.values (headers resp) "Content-Type"
              = ["application/json"] /\
              exists j, json_body resp j)).
  { intros call E. rewrite E. cbn [fst snd]. intros H. injection H as <-.
    destruct (upstream w [] call) as [up|e] eqn:U; cbn [answer].
    - destruct (relay (runtime w) up) as [r|f] eqn:L.
      + left. apply relay_inv in L. destruct L as [C ->].
        exists call, up. now rewrite U.
      + right; right. apply own_response_kind. simpl; tauto.
    - right; right. apply own_response_kind. simpl; tauto. }
  destruct (route_cases request)
    as [O | [[Hm Hp] | [R | [R | (Hm & H1 & H2 & H3 & H4)]]]].
  - rewrite (serve_options w request env O). cbn [fst].
    intros H. injection H as <-. right; left. now repeat split.
  - rewrite (serve_health w request env Hm Hp). cbn [fst].
    intros H. injection H as <-. right; right.
    apply own_response_kind. simpl; tauto.
  - destruct (openai_cases w request env R)
      as [(K & r & E) | [(key & _ & _ & f & E) | (key & _ & _ & E)]].
    + rewrite (serve_openai w request env R), openai_unconfigured by exact K.
      cbn [fst]. intros H. injection H as <-. right; right.
      apply own_response_kind. simpl; tauto.
    + rewrite E. discriminate.
    + intros H. exact (F _ E H).
  - destruct (anthropic_cases w request env R)
      as [(K & r & E) | [(key & _ & _ & f & E) | (key & _ & _ & E)]].
    + rewrite (serve_anthropic w request env R), anthropic_unconfigured
        by exact K.
      cbn [fst]. intros H. injection H as <-. right; right.
      apply own_response_kind. simpl; tauto.
    + rewrite E. discriminate.
    + intros H. exact (F _ E H).
  - rewrite (serve_not_found w request env Hm H1 H2 H3 H4). cbn [fst].
    intros H. injection H as <-. right; right.
    apply own_response_kind. simpl; tauto.
Qed.

Lemma response_kinds_witness :
  let request := Sample.req "POST" "/v1/chat/completions" in
  let resp := error_response Sample.rt {| message := "connect ECONNREFUSED" |} in
  (exists call up,
      upstream_calls Sample.offline request Sample.keys = [call] /\
      upstream Sample.offline [] call = Fulfilled up /\
      constructible up /\ resp = relayed up) \/
  (method request = "OPTIONS" /\ status resp = 204%Z /\ body resp = None) \/
  (In (status resp) [200; 404; 500; 502]%Z /\
   Headers.values (headers resp) "Content-Type" = ["application/json"] /\
   exists j, json_body resp j).
Proof.
  intros request resp.
  apply (response_kinds Sample.offline request Sample.keys resp).
  reflexivity.
Defined.

(** X13.  The body of the 502 response tells the failures apart: the
    [catch] block builds a response for every error, and two errors whose
    502 bodies are equal have the same message. *)
Theorem proxy_error_body_determines_message rt (e1 e2 : Error) :
  exists r1 r2,
    proxyError rt e1 = Ok r1 /\ proxyError rt e2 = Ok r2 /\
    (body r1 = body r2 -> message e1 = message e2).
Proof.
  exists (error_response rt e1), (error_response rt e2).
  split; [apply proxyError_ok|]. split; [apply proxyError_ok|].
  intros H.
  destruct (error_response_message_readable rt e1) as [B1 R1].
  destruct (error_response_message_readable rt e2) as [B2 R2].
  rewrite B1, B2 in H.
  apply (f_equal (fun o => match o with Some t => t | None => EmptyString end))
    in H.
  cbv beta iota in H. apply append_inv_head in H.
  rewrite H in R1. congruence.
Qed.

(** X14.  Relaying is idempotent: a response that went through the relay
    once is left as it is by a second pass, as when the upstream of one
    proxy is another one. *)
Theorem relay_idempotent rt up r :
  relay rt up = Ok r -> relay rt r = Ok r.
Proof.
  intros H. apply relay_inv in H. destruct H as [C ->].
  rewrite relay_ok by exact C. f_equal.
  unfold relayed at 1. cbn [status statusText headers body].
  unfold relayed. f_equal. cbn [headers].
  rewrite (set_present _ "Access-Control-Allow-Origin")
    by now rewrite !filter_set_missed, filter_set_named
         by (apply misses_named; reflexivity).
  rewrite (set_present _ "Access-Control-Allow-Methods")
    by now rewrite filter_set_missed, filter_set_named
         by (apply misses_named; reflexivity).
  now rewrite set_present by now rewrite filter_set_named.
Qed.

Lemma relay_idempotent_witness :
  relay Sample.rt (relayed Sample.upstream_ok)
  = Ok (relayed Sample.upstream_ok).
Proof.
  apply (relay_idempotent Sample.rt Sample.upstream_ok
           (relayed Sample.upstream_ok)).
  reflexivity.
Defined.

(** X15.  What is sent upstream is decided by the request and the keys
    alone: in two worlds, whatever their runtimes choose, their upstreams
    answer and their clocks read, the same request makes the same upstream
    calls. *)
Theorem upstream_calls_ignore_the_world w w' request env :
  upstream_calls w request env = upstream_calls w' request env.
Proof.
  unfold upstream_calls.
  destruct (route_cases request)
    as [O | [[Hm Hp] | [R | [R | (Hm & H1 & H2 & H3 & H4)]]]].
  - now rewrite !serve_options.
  - now rewrite !serve_health.
  - destruct (JS.truthy (OPENAI_API_KEY env)) as [key|] eqn:K.
    + destruct (accepted_dec ("Bearer " ++ key)) as [A|A].
      * now rewrite !(serve_openai_call _ request env key R K A).
      * now rewrite !(serve_openai_refused _ request env key R K A).
    + now rewrite !(serve_openai _ request env R), !openai_unconfigured.
  - destruct (JS.truthy (ANTHROPIC_API_KEY env)) as [key|] eqn:K.
    + destruct (accepted_dec key) as [A|A].
      * now rewrite !(serve_anthropic_call _ request env key R K A).
      * now rewrite !(serve_anthropic_refused _ request env key R K A).
    + now rewrite !(serve_anthropic _ request env R), !anthropic_unconfigured.
  - now rewrite !serve_not_found.
Qed.

Lemma proxy_error_body_determines_message_witness :
  exists r1 r2,
    proxyError Sample.rt {| message := "connect ECONNREFUSED" |} = Ok r1 /\
    proxyError Sample.rt {| message := "connect ECONNREFUSED" |} = Ok r2 /\
    (body r1 = body r2 ->
     message {| message := "connect ECONNREFUSED" |}
     = message {| message := "connect ECONNREFUSED" |}).
Proof.
  apply (proxy_error_body_determines_message Sample.rt
           {| message := "connect ECONNREFUSED" |}
           {| message := "connect ECONNREFUSED" |}).
Defined.

(** ** Throws *)

(** X16.  A configured key that the [Headers] methods refuse, because it
    holds a NUL, LF or CR once trimmed, makes the worker throw on that
    key's route before the [try] block: no response is returned and no
    upstream call is made. *)
Theorem refused_key_throws w request env key :
  (routed_openai request /\
   JS.truthy (OPENAI_API_KEY env) = Some key /\
   ~ accepted ("Bearer " ++ key)) \/
  (routed_anthropic request /\
   JS.truthy (ANTHROPIC_API_KEY env) = Some key /\
   ~ accepted key) ->
  (exists f, response_of w request env = Threw (thrown (runtime w) f)) /\
  upstream_calls w request env = [].
Proof.
  unfold response_of, upstream_calls.
  intros [(R & K & A) | (R & K & A)].
  - rewrite (serve_openai_refused w request env key R K A).
    split; [eexists|]; reflexivity.
  - rewrite (serve_anthropic_refused w request env key R K A).
    split; [eexists|]; reflexivity.
Qed.

Lemma refused_key_throws_witness :
  (exists f,
      response_of Sample.online (Sample.req "POST" "/v1/chat/completions")
        Sample.broken_keys = Threw (thrown Sample.rt f)) /\
  upstream_calls Sample.online (Sample.req "POST" "/v1/chat/completions")
    Sample.broken_keys = [].
Proof.
  apply (refused_key_throws Sample.online
           (Sample.req "POST" "/v1/chat/completions") Sample.broken_keys
           Sample.broken_key).
  left. repeat split; discriminate.
Defined.

(** X17.  Whatever the request, the keys and the world, a response the
    worker returns carries the three CORS headers with their fixed
    values. *)
Theorem returned_response_carries_cors w request env resp :
  response_of w request env = Returned resp ->
  carries_cors (headers resp).
Proof.
  unfold response_of.
  destruct (serve_cases w request env)
    as [(r & E & [-> | (j & st & ->)]) | [(call & E) | (f & E)]];
    rewrite E; cbn [fst]; intros H; try discriminate; injection H as <-.
  - apply preflight_cors.
  - apply own_response_cors.
  - apply answer_cors.
Qed.

Lemma returned_response_carries_cors_witness :
  carries_cors (headers (relayed Sample.upstream_ok)).
Proof.
  apply (returned_response_carries_cors Sample.online
           (Sample.req "POST" "/anthropic/v1/messages") Sample.keys
           (relayed Sample.upstream_ok)).
  reflexivity.
Defined.


